(** * genomics_scripts: the VCF-to-TAB extractor and the allele-frequency
      calculator

    A shallow embedding of the two scripts

      - [02_python_script_used_to_convert_vcf_to_tab.py]
        ([extract_vcf_info] and its driver), and
      - [02_python_script_used_to_calculate_allele_freq_fromtabfiles.py]
        ([compute_allele_frequency]),

    followed by the properties of the specification that concern them.

    Text is modelled as [string]; a character is a code point below 256.
    A file opened for reading is the list of lines its iterator yields
    (each line still carries its line terminator), a file opened for
    writing is the list of strings passed to [write], and the console is
    the list of lines passed to [print].  Exceptions are explicit: a
    computation returns a value or the exception it raises. *)

From Stdlib Require Import ZArith List String Ascii Bool Lia.
From Stdlib Require Import DecimalString.
Import ListNotations.

Local Open Scope string_scope.
Local Open Scope Z_scope.

(** ** Exceptions and the error monad *)

Inductive exn : Set :=
| ValueError
| IndexError
| ZeroDivisionError
| OverflowError.

Inductive result (A : Type) : Type :=
| Ok (a : A)
| Raise (e : exn).

Arguments Ok {A} a.
Arguments Raise {A} e.

Definition bind {A B : Type} (c : result A) (k : A -> result B) : result B :=
  match c with
  | Ok a => k a
  | Raise e => Raise e
  end.

Declare Scope py_scope.
Delimit Scope py_scope with py.
Notation "x <- c ;; k" := (bind c (fun x => k))
  (at level 61, c at next level, right associativity) : py_scope.

(** ** The Python built-ins the scripts call *)

Module Py.

Definition TAB : ascii := "009"%char.
Definition LF : ascii := "010"%char.

(** [str.isspace] on one character, for code points below 256: the
    characters [str.strip()] removes. *)
Definition isspace (c : ascii) : bool :=
  let n := N_of_ascii c in
  (((9 <=? n) && (n <=? 13)) || ((28 <=? n) && (n <=? 32))
   || (n =? 133) || (n =? 160))%N.

(** The characters [int()] ignores around a literal: the separators 28
    to 31 are whitespace for [str.strip()] but not for [int()]. *)
Definition isspace_int (c : ascii) : bool :=
  let n := N_of_ascii c in
  (((9 <=? n) && (n <=? 13)) || (n =? 32) || (n =? 133) || (n =? 160))%N.

Fixpoint lstrip_with (p : ascii -> bool) (s : string) : string :=
  match s with
  | EmptyString => EmptyString
  | String c s' => if p c then lstrip_with p s' else s
  end.

Fixpoint rstrip_with (p : ascii -> bool) (s : string) : string :=
  match s with
  | EmptyString => EmptyString
  | String c s' =>
      match rstrip_with p s' with
      | EmptyString => if p c then EmptyString else String c EmptyString
      | r => String c r
      end
  end.

Definition lstrip : string -> string := lstrip_with isspace.
Definition rstrip : string -> string := rstrip_with isspace.

(** [s.strip()]: leading and trailing whitespace removed. *)
Definition strip (s : string) : string := rstrip (lstrip s).

(** [s.split(sep)] for a one-character separator, the only kind the
    scripts use.  The result is never empty. *)
Fixpoint split (sep : ascii) (s : string) : list string :=
  match s with
  | EmptyString => [EmptyString]
  | String c s' =>
      if Ascii.eqb c sep then EmptyString :: split sep s'
      else match split sep s' with
           | h :: t => String c h :: t
           | [] => [String c EmptyString]
           end
  end.

(** [sep.join(l)] *)
Fixpoint join (sep : string) (l : list string) : string :=
  match l with
  | [] => EmptyString
  | x :: rest =>
      match rest with
      | [] => x
      | _ :: _ => x ++ sep ++ join sep rest
      end
  end.

(** [s.startswith(p)] *)
Definition startswith (p s : string) : bool := String.prefix p s.

(** [s.endswith(suf)] *)
Fixpoint endswith (suf s : string) : bool :=
  String.eqb s suf
  || match s with
     | EmptyString => false
     | String _ s' => endswith suf s'
     end.

(** [sub in s] *)
Fixpoint contains (sub s : string) : bool :=
  String.prefix sub s
  || match s with
     | EmptyString => false
     | String _ s' => contains sub s'
     end.

(** [s.replace(old, new)] for a non-empty [old]: every occurrence, found
    left to right without overlap, is replaced.  [skip] counts the
    characters of an occurrence already replaced that are still to be
    passed over. *)
Fixpoint replace_from (old new : string) (skip : nat) (s : string) : string :=
  match s with
  | EmptyString => EmptyString
  | String c s' =>
      match skip with
      | S k => replace_from old new k s'
      | O =>
          if String.prefix old s
          then new ++ replace_from old new (Nat.pred (String.length old)) s'
          else String c (replace_from old new O s')
      end
  end.

Definition replace (old new s : string) : string := replace_from old new O s.

(** [l[i]] for a non-negative index. *)
Definition getitem {A : Type} (l : list A) (i : nat) : result A :=
  match nth_error l i with
  | Some x => Ok x
  | None => Raise IndexError
  end.

(** [l.index(x)] *)
Fixpoint index (x : string) (l : list string) : result nat :=
  match l with
  | [] => Raise ValueError
  | y :: l' =>
      if String.eqb y x then Ok O
      else (i <- index x l' ;; Ok (S i))%py
  end.

(** [l[:n]] for a non-negative bound. *)
Definition slice_to {A : Type} (n : nat) (l : list A) : list A := firstn n l.

(** *** [int(s)] *)

Definition isdigit (c : ascii) : bool :=
  let n := N_of_ascii c in ((48 <=? n) && (n <=? 57))%N.

Definition digit_value (c : ascii) : Z := Z.of_N (N_of_ascii c) - 48.

(** Decimal digits, single underscores allowed between two digits.
    [after_digit] tells whether the previous character was a digit. *)
Fixpoint digits_value (s : string) (acc : Z) (after_digit : bool) : option Z :=
  match s with
  | EmptyString => if after_digit then Some acc else None
  | String c s' =>
      if isdigit c then digits_value s' (10 * acc + digit_value c) true
      else if Ascii.eqb c "_"
           then if after_digit then digits_value s' acc false else None
           else None
  end.

(** [int(s)]: surrounding whitespace is ignored, then an optional sign
    and a decimal literal.  Python integers are unbounded.  (The cap on the
    number of digits that recent interpreters apply is an interpreter
    setting and is not part of the model.) *)
Definition int (s : string) : result Z :=
  let t := rstrip_with isspace_int (lstrip_with isspace_int s) in
  let parsed :=
    match t with
    | String "+" r => digits_value r 0 false
    | String "-" r => option_map Z.opp (digits_value r 0 false)
    | _ => digits_value t 0 false
    end in
  match parsed with
  | Some z => Ok z
  | None => Raise ValueError
  end.

(** *** Floats: [n / d] on integers and the [.2f] format *)

(** A finite binary64 value, [(-1)^neg * m * 2^e]; [neg] is kept for zero
    too, since [0 / -5] is [-0.0] and prints with its sign. *)
Record float : Set := Float { neg : bool; mant : Z; expo : Z }.

(** [n / d] rounded to the nearest integer, ties to even; [0 <= n], [0 < d]. *)
Definition round_half_even (n d : Z) : Z :=
  let q := n / d in
  let r := n mod d in
  if (d <? 2 * r) || ((2 * r =? d) && Z.odd q) then q + 1 else q.

(** The fraction [N / (D * 2^e)] as a pair of integers. *)
Definition scaled (N D e : Z) : Z * Z :=
  if e <? 0 then (N * 2 ^ (- e), D) else (N, D * 2 ^ e).

(** [n / d] on two integers (true division): the quotient correctly
    rounded to binary64 (53-bit significand, exponents from -1074 to 971,
    ties to even); [ZeroDivisionError] when [d] is zero and
    [OverflowError] when the rounded quotient is not finite. *)
Definition true_div (n d : Z) : result float :=
  if d =? 0 then Raise ZeroDivisionError
  else
    let sign := xorb (n <? 0) (d <? 0) in
    let N := Z.abs n in
    let D := Z.abs d in
    if N =? 0 then Ok (Float sign 0 0)
    else
      let e0 := Z.log2 N - Z.log2 D - 53 in
      let '(a, b) := scaled N D e0 in
      let e1 := if b * 2 ^ 53 <=? a then e0 + 1 else e0 in
      let e := Z.max e1 (-1074) in
      let '(a', b') := scaled N D e in
      let m := round_half_even a' b' in
      if (971 <? e) || ((e =? 971) && (2 ^ 53 <=? m))
      then Raise OverflowError
      else Ok (Float sign m e).

(** The decimal numeral of a non-negative integer. *)
Definition decimal (k : Z) : string :=
  NilZero.string_of_uint (N.to_uint (Z.to_N k)).

Definition digit_char (d : Z) : ascii := ascii_of_N (Z.to_N (48 + d)).

(** [f"{x:.2f}"]: [x] correctly rounded to two decimals, ties to even. *)
Definition format_2f (x : float) : string :=
  let '(a, b) := scaled (100 * mant x) 1 (- expo x) in
  let k := round_half_even a b in
  (if neg x then "-" else "")
  ++ decimal (k / 100)
  ++ String "." (String (digit_char (k mod 100 / 10))
                   (String (digit_char (k mod 10)) EmptyString)).

(** [os.path.join(a, b)] on a POSIX system. *)
Definition path_join (a b : string) : string :=
  if startswith "/" b then b
  else if String.eqb a "" || endswith "/" a then a ++ b
  else a ++ "/" ++ b.

End Py.

(** ** The allele-frequency calculator *)

Module Calculator.

Local Open Scope py_scope.

(** What one iteration of the loop over the input lines does: it writes
    one string to the output file, or it prints one diagnostic and goes
    on, or it leaves the loop with an exception. *)
Inductive outcome : Set :=
| Written (s : string)
| Logged (msg : string)
| Uncaught (e : exn).

(** [ref_count, alt_count = map(int, v.split(","))]: every failure of
    the conversions and of the unpacking is a [ValueError]. *)
Definition unpack_counts (v : string) : result (Z * Z) :=
  match map Py.int (Py.split "," v) with
  | [Ok ref_count; Ok alt_count] => Ok (ref_count, alt_count)
  | _ => Raise ValueError
  end.

(** The body of the [try] block; the value is the string passed to
    [f_out.write]. *)
Definition try_block (line : string) (info_fields info_values : list string)
  : result string :=
  ad_index <- Py.index "AD" info_fields ;;
  dp_index <- Py.index "DP" info_fields ;;
  ad_value <- Py.getitem info_values ad_index ;;
  counts <- unpack_counts ad_value ;;
  let '(ref_count, alt_count) := counts in
  dp_value <- Py.getitem info_values dp_index ;;
  total_depth <- Py.int dp_value ;;
  freq <- Py.true_div (100 * alt_count) total_depth ;;
  Ok (Py.strip line ++ String Py.TAB (Py.format_2f freq)
        ++ String "%" (String Py.LF EmptyString)).

(** The diagnostic of the [except] clause. *)
Definition error_message (input_file line : string) : string :=
  "Error processing line: " ++ Py.strip line ++ " in " ++ input_file.

(** The [except (ValueError, IndexError)] clause around the block. *)
Definition handle (input_file line : string) (r : result string) : outcome :=
  match r with
  | Ok s => Written s
  | Raise ValueError | Raise IndexError => Logged (error_message input_file line)
  | Raise e => Uncaught e
  end.

(** The fields of a line, as the loop body computes them. *)
Definition fields_of (line : string) : list string :=
  Py.split Py.TAB (Py.strip line).

(** One iteration of the loop.  The two subscripts [fields[8]] and
    [fields[9]] are evaluated before the [try] block is entered. *)
Definition process_line (input_file line : string) : outcome :=
  let fields := fields_of line in
  match Py.getitem fields 8 with
  | Raise e => Uncaught e
  | Ok format_column =>
      let info_fields := Py.split ":" format_column in
      match Py.getitem fields 9 with
      | Raise e => Uncaught e
      | Ok sample_column =>
          let info_values := Py.split ":" sample_column in
          handle input_file line (try_block line info_fields info_values)
      end
  end.

(** The effects of a run on one file. *)
Record run : Set := Run {
  f_out : list string;      (* strings written to the output file, in order *)
  stdout : list string;     (* lines printed, in order *)
  raised : option exn       (* the exception that ended the run, if any *)
}.

(** [compute_allele_frequency(input_file, output_file)], given the lines
    of the input file. *)
Fixpoint compute_allele_frequency (input_file : string) (f_in : list string)
  : run :=
  match f_in with
  | [] => Run [] [] None
  | line :: rest =>
      match process_line input_file line with
      | Written s =>
          let r := compute_allele_frequency input_file rest in
          Run (s :: f_out r) (stdout r) (raised r)
      | Logged msg =>
          let r := compute_allele_frequency input_file rest in
          Run (f_out r) (msg :: stdout r) (raised r)
      | Uncaught e => Run [] [] (Some e)
      end
  end.

End Calculator.

(** ** The VCF-to-TAB extractor *)

Module Extractor.

(** One iteration of the loop of [extract_vcf_info]: the string written
    for the line, if any. *)
Definition extract_line (line : string) : option string :=
  if Py.startswith "##" line then None
  else if Py.startswith "#CHROM" line
  then Some (Py.join (String Py.TAB EmptyString)
               (Py.slice_to 2 (Py.split Py.TAB (Py.strip line)))
             ++ String Py.LF EmptyString)
  else
    let parts := Py.split Py.TAB (Py.strip line) in
    Some (Py.join (String Py.TAB EmptyString) (Py.slice_to 2 parts)
          ++ String Py.LF EmptyString).

(** [extract_vcf_info(input_vcf, output_tab)], given the lines of the
    input file: the strings written to the output file. *)
Fixpoint extract_vcf_info (infile : list string) : list string :=
  match infile with
  | [] => []
  | line :: rest =>
      match extract_line line with
      | Some s => s :: extract_vcf_info rest
      | None => extract_vcf_info rest
      end
  end.

Definition directory_path : string := ".".

Definition input_vcf (filename : string) : string :=
  Py.path_join directory_path filename.

Definition output_tab (filename : string) : string :=
  Py.path_join directory_path (Py.replace ".vcf" ".tab" filename).

(** The effects of the driver: the files written, with their contents,
    and the lines printed. *)
Record effects : Set := Effects {
  files : list (string * list string);
  console : list string
}.

(** The driver, given the entries of the directory in the order
    [os.listdir] returns them, each with the lines of the file. *)
Fixpoint main (entries : list (string * list string)) : effects :=
  match entries with
  | [] => Effects [] []
  | (filename, content) :: rest =>
      let r := main rest in
      if Py.endswith ".vcf" filename
      then Effects
             ((output_tab filename, extract_vcf_info content) :: files r)
             (("Processed " ++ input_vcf filename ++ " -> "
                 ++ output_tab filename) :: console r)
      else r
  end.

End Extractor.

(** ** Vocabulary of the statements *)

(** Every character of [s] satisfies [p]. *)
Fixpoint all_chars (p : ascii -> bool) (s : string) : bool :=
  match s with
  | EmptyString => true
  | String c s' => p c && all_chars p s'
  end.

Definition differs_from (sep c : ascii) : bool := negb (Ascii.eqb c sep).

(** The characters a formatted frequency is made of. *)
Definition numeral_char (c : ascii) : bool :=
  Py.isdigit c || Ascii.eqb c "-" || Ascii.eqb c ".".

(** A line of text from its columns. *)
Definition tabbed (columns : list string) : string :=
  Py.join (String Py.TAB EmptyString) columns.

(** A line with its line terminator. *)
Definition terminated (text : string) : string :=
  text ++ String Py.LF EmptyString.

(** [line] is a record the calculator can read: its field list has
    entries 8 and 9, the FORMAT entry names [AD] and [DP], the value at
    the position of [AD] is two comma-separated integers and the value
    at the position of [DP] is one integer. *)
Definition record_with_counts (line : string)
    (ref_count alt_count total_depth : Z) : Prop :=
  exists format_column sample_column ad_index dp_index
         ad_value ref_text alt_text dp_value,
    nth_error (Calculator.fields_of line) 8 = Some format_column /\
    nth_error (Calculator.fields_of line) 9 = Some sample_column /\
    Py.index "AD" (Py.split ":" format_column) = Ok ad_index /\
    Py.index "DP" (Py.split ":" format_column) = Ok dp_index /\
    nth_error (Py.split ":" sample_column) ad_index = Some ad_value /\
    Py.split "," ad_value = [ref_text; alt_text] /\
    Py.int ref_text = Ok ref_count /\
    Py.int alt_text = Ok alt_count /\
    nth_error (Py.split ":" sample_column) dp_index = Some dp_value /\
    Py.int dp_value = Ok total_depth.

(** The string the calculator writes for a line whose frequency is [x]. *)
Definition frequency_row (line : string) (x : Py.float) : string :=
  Py.strip line ++ String Py.TAB (Py.format_2f x)
    ++ String "%" (String Py.LF EmptyString).

(** Sample inputs. *)

Definition variant_columns : list string :=
  ["chr1"; "12345"; "."; "A"; "G"; "50"; "PASS"; "."].

(** A record with 30 reference reads and 10 alternate reads out of 40. *)
Definition sample_text : string :=
  tabbed (variant_columns ++ ["GT:AD:DP"; "0/1:30,10:40"]).

Definition sample_line : string := terminated sample_text.

(** The same record after a leading blank. *)
Definition indented_text : string := String " " sample_text.

Definition indented_line : string := terminated indented_text.

(** A record whose alternate count is negative. *)
Definition negative_line : string :=
  terminated (tabbed (variant_columns ++ ["GT:AD:DP"; "0/1:30,-10:40"])).

(** A record whose alternate count exceeds the total depth. *)
Definition excess_line : string :=
  terminated (tabbed (variant_columns ++ ["GT:AD:DP"; "0/1:30,60:40"])).

(** A record whose total depth is zero. *)
Definition zero_depth_line : string :=
  terminated (tabbed (variant_columns ++ ["GT:AD:DP"; "0/0:0,0:0"])).

(** A record whose FORMAT column lacks [DP]. *)
Definition no_dp_line : string :=
  terminated (tabbed (variant_columns ++ ["GT:AD"; "0/1:30,10"])).

(** A row of the extractor's own output: two columns. *)
Definition two_column_line : string :=
  terminated (tabbed ["chr1"; "12345"]).

(** Ten columns, the tenth empty and last on the line. *)
Definition empty_sample_text : string :=
  tabbed (variant_columns ++ ["GT:AD:DP"; ""]).

(** The nine-column row that is left of it without the tenth column. *)
Definition nine_column_text : string :=
  tabbed (variant_columns ++ ["GT:AD:DP"]).

(** The numeral of ten to the power [n]. *)
Fixpoint zeros (n : nat) : string :=
  match n with
  | O => EmptyString
  | S n' => String "0" (zeros n')
  end.

(** A record whose alternate count is ten to the power 307, with depth 1. *)
Definition huge_line : string :=
  terminated (tabbed (variant_columns
    ++ ["GT:AD:DP"; "0/1:0," ++ String "1" (zeros 307) ++ ":1"])).

(** A VCF data line. *)
Definition vcf_line : string :=
  terminated (tabbed ["chr1"; "12345"; "."; "A"; "G"]).

(** A directory of three VCF files and one other file. *)
Definition three_vcf_directory : list (string * list string) :=
  [("a.vcf", ["##fileformat=VCFv4.2"%string; vcf_line]);
   ("notes.txt", []);
   ("b.vcf", [vcf_line]);
   ("c.vcf", [])].

(** The line the driver of the extractor prints for a file. *)
Definition progress_line (filename : string) : string :=
  "Processed " ++ Extractor.input_vcf filename ++ " -> "
    ++ Extractor.output_tab filename.

Definition is_vcf (entry : string * list string) : bool :=
  Py.endswith ".vcf" (fst entry).

(** ** Files, and the driver of the calculator *)

Module Files.

Definition CR : ascii := "013"%char.

(** The lines the iterator of a file opened for reading in text mode
    yields: a line ends after a line feed, after a carriage return and a
    line feed, or after a lone carriage return, each of them read as one
    line feed; text after the last terminator is a last line without
    one. *)
Fixpoint readlines (content : string) : list string :=
  match content with
  | EmptyString => []
  | String c rest =>
      if Ascii.eqb c Py.LF then String Py.LF EmptyString :: readlines rest
      else if Ascii.eqb c CR then
        match rest with
        | String c' _ =>
            if Ascii.eqb c' Py.LF then readlines rest
            else String Py.LF EmptyString :: readlines rest
        | EmptyString => [String Py.LF EmptyString]
        end
      else
        match readlines rest with
        | [] => [String c EmptyString]
        | l :: ls => String c l :: ls
        end
  end.

(** The content of a file opened for writing after the writes [rows]. *)
Fixpoint written (rows : list string) : string :=
  match rows with
  | [] => EmptyString
  | row :: rest => row ++ written rest
  end.

(** A directory: its entries in the order they are listed, each with the
    content of the file.  Every entry is a regular file that can be
    read; an entry of another kind (a directory, a dangling link), on
    which [open] itself fails, is not represented. *)
Definition directory : Set := list (string * string).

Fixpoint lookup (name : string) (d : directory) : option string :=
  match d with
  | [] => None
  | (n, content) :: rest =>
      if String.eqb n name then Some content else lookup name rest
  end.

(** [open(name, 'w')] followed by the writes: the file is created, or
    its content replaced. *)
Fixpoint update (name content : string) (d : directory) : directory :=
  match d with
  | [] => [(name, content)]
  | (n, old) :: rest =>
      if String.eqb n name then (n, content) :: rest
      else (n, old) :: update name content rest
  end.

(** [glob.glob('*.tab')]: the names that end with [.tab], hidden files
    left out. *)
Definition glob_tab (d : directory) : list string :=
  filter (fun name => Py.endswith ".tab" name && negb (Py.startswith "." name))
         (map fst d).

(** [s.rsplit(sep, 1)] for a one-character separator: the text before
    and after the last separator, or the string alone when it has none. *)
Fixpoint rsplit1 (sep : ascii) (s : string) : list string :=
  match s with
  | EmptyString => [EmptyString]
  | String c s' =>
      match rsplit1 sep s' with
      | [before; after] => [String c before; after]
      | _ => if Ascii.eqb c sep then [EmptyString; s'] else [String c s']
      end
  end.

(** [str(n)] for the length of a list. *)
Definition str_len {A : Type} (l : list A) : string :=
  Py.decimal (Z.of_nat (List.length l)).

End Files.

Module CalculatorDriver.

(** What ends [main] early: an exception that left
    [compute_allele_frequency], or an input file that cannot be opened. *)
Inductive failure : Set :=
| Propagated (e : exn)
| FileNotFoundError.

(** [tab_file.rsplit('.', 1)[0] + '_freq.tab'] *)
Definition output_file (tab_file : string) : string :=
  match Files.rsplit1 "." tab_file with
  | stem :: _ => stem ++ "_freq.tab"
  | [] => "_freq.tab"
  end.

(** The effects of the driver: the directory as it is left, the lines
    printed, and what ended the driver early, if anything. *)
Record effects : Set := Effects {
  left : Files.directory;
  console : list string;
  failed : option failure
}.

(** [compute_allele_frequency(input_file, output_file)] on the files of
    a directory: both files are opened, the output file is emptied, the
    lines of the input file are processed, and what was written before an
    exception stays in the output file. *)
Definition run_on (input_file output : string) (d : Files.directory)
  : option (Files.directory * Calculator.run) :=
  match Files.lookup input_file d with
  | None => None
  | Some content =>
      let f_in :=
        if String.eqb output input_file then []
        else Files.readlines content in
      let r := Calculator.compute_allele_frequency input_file f_in in
      Some (Files.update output (Files.written (Calculator.f_out r)) d, r)
  end.

(** The loop of [main] over the files found. *)
Fixpoint process_files (tab_files : list string) (d : Files.directory)
  : effects :=
  match tab_files with
  | [] => Effects d [] None
  | tab_file :: rest =>
      match run_on tab_file (output_file tab_file) d with
      | None => Effects d [] (Some FileNotFoundError)
      | Some (d', r) =>
          match Calculator.raised r with
          | Some e => Effects d' (Calculator.stdout r) (Some (Propagated e))
          | None =>
              let after := process_files rest d' in
              Effects (left after)
                      (Calculator.stdout r ++ console after)%list
                      (failed after)
          end
      end
  end.

Definition summary (tab_files : list string) : string :=
  "Processed " ++ Files.str_len tab_files
    ++ " TAB files and calculated allele frequencies.".

(** [main()] in a directory. *)
Definition main (d : Files.directory) : effects :=
  let tab_files := Files.glob_tab d in
  let done := process_files tab_files d in
  match failed done with
  | Some f => done
  | None => Effects (left done) (console done ++ [summary tab_files])%list None
  end.

End CalculatorDriver.

(** Further vocabulary. *)

(** The number of lines of a file that are not [##] lines. *)
Definition retained (infile : list string) : list string :=
  filter (fun line => negb (Py.startswith "##" line)) infile.

(** A character that ends no line. *)
Definition inline_char (c : ascii) : bool :=
  negb (Ascii.eqb c Py.LF) && negb (Ascii.eqb c Files.CR).

(** One line of a file, with its terminator: no line break inside. *)
Definition one_line (s : string) : Prop :=
  exists body, s = body ++ String Py.LF EmptyString
               /\ all_chars inline_char body = true.

(** A record of a site with two alternate alleles: three counts. *)
Definition multiallelic_line : string :=
  terminated (tabbed (variant_columns ++ ["GT:AD:DP"; "1/2:5,30,10:45"])).

(** A record whose depth is the placeholder for a missing value. *)
Definition missing_depth_line : string :=
  terminated (tabbed (variant_columns ++ ["GT:AD:DP"; "0/1:30,10:."])).

(** A record whose sample column stops before the depth. *)
Definition short_sample_line : string :=
  terminated (tabbed (variant_columns ++ ["GT:AD:DP"; "0/1:30,10"])).

(** An empty line. *)
Definition blank_line : string := terminated EmptyString.

(** A directory with two TAB files, a hidden one and a VCF file. *)
Definition tab_directory : Files.directory :=
  [("run1.tab", sample_line ++ negative_line);
   (".backup.tab", sample_line);
   ("calls.vcf", vcf_line);
   ("run2.v1.tab", sample_line ++ no_dp_line)].

(** A directory whose first TAB file holds a record of depth zero. *)
Definition failing_directory : Files.directory :=
  [("bad.tab", sample_line ++ zero_depth_line ++ sample_line);
   ("good.tab", sample_line)].

(** The number of hundredths a formatted float shows: [f"{x:.2f}"] is
    the numeral of [hundredths x / 100], a point and the two digits of
    [hundredths x mod 100]. *)
Definition hundredths (x : Py.float) : Z :=
  let '(a, b) := Py.scaled (100 * Py.mant x) 1 (- Py.expo x) in
  Py.round_half_even a b.

(** A record with three counts for AD and a depth of zero. *)
Definition three_counts_zero_line : string :=
  terminated (tabbed (variant_columns ++ ["GT:AD:DP"; "1/2:0,0,0:0"])).

(** A record whose FORMAT names DP but not AD, with a depth of zero. *)
Definition depth_only_zero_line : string :=
  terminated (tabbed (variant_columns ++ ["GT:DP"; "0/1:0"])).

(** A line that starts with a tab: its column 8 is [GT], its columns 9
    and 10 are the FORMAT and sample columns of [sample_text]. *)
Definition shifted_text : string :=
  String Py.TAB
    (tabbed (["chr1"; "12345"; "."; "A"; "G"; "50"; "PASS"]
               ++ ["GT"; "GT:AD:DP"; "0/1:30,10:40"])).

(** Ten columns: FORMAT lacks DP and the tenth column is empty. *)
Definition empty_tenth_text : string :=
  tabbed (variant_columns ++ ["GT:AD"; ""]).

(** A VCF line of two columns after a leading blank. *)
Definition blank_led_text : string := String " " (tabbed ["chr1"; "12345"]).

(** A VCF line of two columns, the second one empty. *)
Definition empty_second_text : string := tabbed ["chr1"; ""].


(** ** Facts about the built-ins *)

Section StringFacts.

Lemma append_nil_r (s : string) : s ++ "" = s.
Proof. induction s as [|c s IH]; simpl; [reflexivity | now rewrite IH]. Qed.

Lemma append_assoc (a b c : string) : (a ++ b) ++ c = a ++ (b ++ c).
Proof. induction a as [|x a IH]; simpl; [reflexivity | now rewrite IH]. Qed.

Lemma all_chars_app (p : ascii -> bool) (a b : string) :
  all_chars p (a ++ b) = all_chars p a && all_chars p b.
Proof.
  induction a as [|x a IH]; simpl; [reflexivity|].
  rewrite IH. apply andb_assoc.
Qed.

Lemma all_chars_weaken (p q : ascii -> bool) (s : string) :
  (forall c, p c = true -> q c = true) ->
  all_chars p s = true -> all_chars q s = true.
Proof.
  intros Hpq. induction s as [|c s IH]; simpl; [reflexivity|].
  intros H. apply andb_true_iff in H. destruct H as [Hc Hs].
  apply andb_true_iff. split; [apply Hpq, Hc | apply IH, Hs].
Qed.

Variable sep : ascii.

Lemma split_not_nil (s : string) : Py.split sep s <> [].
Proof.
  destruct s as [|c s]; simpl; [discriminate|].
  destruct (Ascii.eqb c sep); [discriminate|].
  destruct (Py.split sep s); discriminate.
Qed.

(** Splitting goes through a separator. *)
Lemma split_app_sep (s t : string) :
  Py.split sep (s ++ String sep t) = (Py.split sep s ++ Py.split sep t)%list.
Proof.
  induction s as [|c s IH]; simpl.
  - now rewrite Ascii.eqb_refl.
  - destruct (Ascii.eqb c sep).
    + now rewrite IH.
    + rewrite IH. pose proof (split_not_nil s) as Hne.
      destruct (Py.split sep s) as [|h tl]; [contradiction | reflexivity].
Qed.

(** A string without separator is one field. *)
Lemma split_no_sep (s : string) :
  all_chars (differs_from sep) s = true -> Py.split sep s = [s].
Proof.
  induction s as [|c s IH]; simpl; [reflexivity|].
  unfold differs_from at 1. intros H.
  apply andb_true_iff in H. destruct H as [Hc Hs].
  apply negb_true_iff in Hc. rewrite Hc, (IH Hs). reflexivity.
Qed.

(** No field contains the separator. *)
Lemma split_fields_clean (s : string) :
  Forall (fun x => all_chars (differs_from sep) x = true) (Py.split sep s).
Proof.
  induction s as [|c s IH]; simpl.
  - constructor; [reflexivity | constructor].
  - destruct (Ascii.eqb c sep) eqn:Hc.
    + constructor; [reflexivity | exact IH].
    + destruct (Py.split sep s) as [|h tl].
      * constructor; [|constructor]. simpl. unfold differs_from. now rewrite Hc.
      * inversion IH as [|? ? Hh Htl]; subst.
        constructor; [|exact Htl].
        simpl. unfold differs_from at 1. now rewrite Hc.
Qed.

End StringFacts.

Lemma index_absent (x : string) (l : list string) :
  ~ In x l -> Py.index x l = Raise ValueError.
Proof.
  induction l as [|y l IH]; simpl; [reflexivity|].
  intros Hnot. destruct (String.eqb_spec y x) as [Heq|Hne].
  - exfalso. apply Hnot. now left.
  - rewrite IH; [reflexivity|]. intros Hin. apply Hnot. now right.
Qed.

Lemma index_raises (x : string) (l : list string) (e : exn) :
  Py.index x l = Raise e -> e = ValueError.
Proof.
  induction l as [|y l IH]; simpl; intros H.
  - now inversion H.
  - destruct (String.eqb y x); [discriminate|].
    destruct (Py.index x l) as [j|e']; simpl in H; [discriminate|].
    inversion H; subst. now apply IH.
Qed.

Lemma index_present (x : string) (l : list string) (i : nat) :
  Py.index x l = Ok i -> nth_error l i = Some x.
Proof.
  revert i. induction l as [|y l IH]; simpl; intros i H; [discriminate|].
  destruct (String.eqb_spec y x) as [Heq|Hne].
  - inversion H; subst. reflexivity.
  - destruct (Py.index x l) as [j|e]; simpl in H; [|discriminate].
    inversion H; subst. simpl. now apply IH.
Qed.

(** *** The formatted frequency *)

Lemma isdigit_digit_char (d : Z) :
  0 <= d <= 9 -> Py.isdigit (Py.digit_char d) = true.
Proof.
  intros Hd.
  assert (d = 0 \/ d = 1 \/ d = 2 \/ d = 3 \/ d = 4 \/ d = 5 \/ d = 6
          \/ d = 7 \/ d = 8 \/ d = 9) as Hcases by lia.
  repeat (destruct Hcases as [->|Hcases]; [reflexivity|]).
  subst d. reflexivity.
Qed.

Lemma isdigit_string_of_uint (u : Decimal.uint) :
  all_chars Py.isdigit (NilEmpty.string_of_uint u) = true.
Proof. induction u; simpl; auto. Qed.

Lemma isdigit_decimal (k : Z) : all_chars Py.isdigit (Py.decimal k) = true.
Proof.
  unfold Py.decimal, NilZero.string_of_uint.
  destruct (N.to_uint (Z.to_N k)) eqn:Hu;
    try reflexivity; rewrite <- Hu; apply isdigit_string_of_uint.
Qed.

Lemma format_2f_chars (x : Py.float) :
  all_chars numeral_char (Py.format_2f x) = true.
Proof.
  unfold Py.format_2f.
  destruct (Py.scaled (100 * Py.mant x) 1 (- Py.expo x)) as [a b].
  set (k := Py.round_half_even a b).
  rewrite !all_chars_app.
  assert (Hdig : forall c, Py.isdigit c = true -> numeral_char c = true).
  { intros c Hc. unfold numeral_char. now rewrite Hc. }
  apply andb_true_iff; split; [|apply andb_true_iff; split].
  - destruct (Py.neg x); reflexivity.
  - apply (all_chars_weaken Py.isdigit); [exact Hdig | apply isdigit_decimal].
  - cbn [all_chars].
    replace (numeral_char ".") with true by reflexivity.
    rewrite !Hdig; [reflexivity | |].
    + apply isdigit_digit_char.
      pose proof (Z.mod_pos_bound k 10). lia.
    + apply isdigit_digit_char.
      pose proof (Z.mod_pos_bound k 100).
      assert (0 <= k mod 100 / 10 < 10); [|lia].
      split; [apply Z.div_pos; lia | apply Z.div_lt_upper_bound; lia].
Qed.

Lemma numeral_char_not_tab (c : ascii) :
  (numeral_char c || Ascii.eqb c "%")%bool = true ->
  differs_from Py.TAB c = true.
Proof.
  destruct c as [[] [] [] [] [] [] [] []]; vm_compute; congruence.
Qed.

(** The appended column holds no tab. *)
Lemma frequency_column_clean (x : Py.float) :
  all_chars (differs_from Py.TAB) (Py.format_2f x ++ "%") = true.
Proof.
  apply (all_chars_weaken (fun c => numeral_char c || Ascii.eqb c "%")%bool).
  - exact numeral_char_not_tab.
  - rewrite all_chars_app. apply andb_true_iff. split.
    + apply (all_chars_weaken numeral_char); [|apply format_2f_chars].
      intros c Hc. now rewrite Hc.
    + reflexivity.
Qed.

Lemma round_half_even_nearest (n d : Z) :
  0 < d -> Z.abs (2 * (n - d * Py.round_half_even n d)) <= d.
Proof.
  intros Hd. unfold Py.round_half_even.
  pose proof (Z.div_mod n d ltac:(lia)) as Hdm.
  pose proof (Z.mod_pos_bound n d Hd) as Hr.
  destruct ((d <? 2 * (n mod d)) || ((2 * (n mod d) =? d) && Z.odd (n / d)))
    eqn:Hup.
  - apply orb_true_iff in Hup. destruct Hup as [Hup|Hup].
    + apply Z.ltb_lt in Hup. nia.
    + apply andb_true_iff in Hup. destruct Hup as [Hup _].
      apply Z.eqb_eq in Hup. nia.
  - apply orb_false_iff in Hup. destruct Hup as [Hup _].
    apply Z.ltb_ge in Hup. nia.
Qed.

Lemma true_div_raises (n d : Z) (e : exn) :
  Py.true_div n d = Raise e ->
  (d = 0 /\ e = ZeroDivisionError) \/ (d <> 0 /\ e = OverflowError).
Proof.
  unfold Py.true_div. destruct (Z.eqb_spec d 0) as [Hd|Hd].
  - intros H. inversion H. now left.
  - destruct (Z.abs n =? 0); [discriminate|].
    destruct (Py.scaled _ _ (Z.log2 (Z.abs n) - Z.log2 (Z.abs d) - 53))
      as [a b].
    destruct (Py.scaled _ _ (Z.max _ _)) as [a' b'].
    destruct (_ || _); [|discriminate].
    intros H. inversion H. now right.
Qed.

Lemma true_div_zero (n : Z) : Py.true_div n 0 = Raise ZeroDivisionError.
Proof. reflexivity. Qed.

(** ** Facts about the calculator *)

Section CalculatorFacts.

Variable input_file : string.

(** On a readable record the loop body comes down to the division. *)
Lemma process_line_counts (line : string) (r a d : Z) :
  record_with_counts line r a d ->
  Calculator.process_line input_file line =
  Calculator.handle input_file line
    (bind (Py.true_div (100 * a) d) (fun x => Ok (frequency_row line x))).
Proof.
  intros (fc & sc & i & j & av & rt & alt & dv
          & H8 & H9 & Hi & Hj & Hav & Hsp & Hr & Ha & Hdv & Hd).
  unfold Calculator.process_line, Py.getitem. rewrite H8, H9.
  unfold Calculator.try_block, Py.getitem. rewrite Hi, Hj. cbn [bind].
  rewrite Hav. cbn [bind].
  unfold Calculator.unpack_counts. rewrite Hsp. cbn [map]. rewrite Hr, Ha.
  cbn [bind]. rewrite Hdv. cbn [bind]. rewrite Hd. reflexivity.
Qed.

(** A field list without entry 8 or 9 ends the run: both subscripts are
    outside the [try] block. *)
Lemma short_row_uncaught (line : string) :
  (List.length (Calculator.fields_of line) < 10)%nat ->
  Calculator.process_line input_file line = Calculator.Uncaught IndexError.
Proof.
  intros Hlen. unfold Calculator.process_line, Py.getitem.
  destruct (nth_error (Calculator.fields_of line) 8); [|reflexivity].
  assert (nth_error (Calculator.fields_of line) 9 = None) as ->
    by (apply nth_error_None; lia).
  reflexivity.
Qed.

Lemma try_block_ok (line : string) (info_fields info_values : list string)
    (s : string) :
  Calculator.try_block line info_fields info_values = Ok s ->
  exists x, s = frequency_row line x.
Proof.
  unfold Calculator.try_block.
  destruct (Py.index "AD" info_fields) as [i|]; [|discriminate].
  destruct (Py.index "DP" info_fields) as [j|]; [|discriminate].
  cbn [bind].
  destruct (Py.getitem info_values i) as [av|]; [|discriminate]. cbn [bind].
  destruct (Calculator.unpack_counts av) as [[rc ac]|]; [|discriminate].
  cbn [bind].
  destruct (Py.getitem info_values j) as [dv|]; [|discriminate]. cbn [bind].
  destruct (Py.int dv) as [d|]; [|discriminate]. cbn [bind].
  destruct (Py.true_div (100 * ac) d) as [x|]; [|discriminate]. cbn [bind].
  intros H. inversion H. now exists x.
Qed.

Lemma written_row (line out : string) :
  Calculator.process_line input_file line = Calculator.Written out ->
  exists x, out = frequency_row line x.
Proof.
  unfold Calculator.process_line.
  destruct (Py.getitem (Calculator.fields_of line) 8) as [fc|]; [|discriminate].
  destruct (Py.getitem (Calculator.fields_of line) 9) as [sc|]; [|discriminate].
  destruct (Calculator.try_block line (Py.split ":" fc) (Py.split ":" sc))
    as [s|e] eqn:Hblock.
  - intros H. inversion H; subst. eapply try_block_ok, Hblock.
  - destruct e; discriminate.
Qed.

(** The run over a file whose first lines raise nothing continues with
    the lines after them. *)
Lemma run_app (before after : list string) :
  Calculator.raised (Calculator.compute_allele_frequency input_file before)
    = None ->
  Calculator.compute_allele_frequency input_file (before ++ after) =
  let done := Calculator.compute_allele_frequency input_file before in
  let r := Calculator.compute_allele_frequency input_file after in
  Calculator.Run (Calculator.f_out done ++ Calculator.f_out r)
                 (Calculator.stdout done ++ Calculator.stdout r)
                 (Calculator.raised r).
Proof.
  induction before as [|line before IH]; cbn [app].
  - intros _. cbn. now destruct (Calculator.compute_allele_frequency _ after).
  - cbn [Calculator.compute_allele_frequency].
    destruct (Calculator.process_line input_file line);
      cbn [Calculator.raised Calculator.f_out Calculator.stdout].
    + intros H. rewrite (IH H). reflexivity.
    + intros H. rewrite (IH H). reflexivity.
    + discriminate.
Qed.

End CalculatorFacts.

(** Whitespace at the end of a line is gone before the line is split. *)
Lemma rstrip_trailing (c : ascii) (s : string) :
  Py.isspace c = true ->
  Py.rstrip (s ++ String c EmptyString) = Py.rstrip s.
Proof.
  intros Hc. unfold Py.rstrip.
  induction s as [|x s IH]; cbn [append Py.rstrip_with].
  - now rewrite Hc.
  - now rewrite IH.
Qed.

Lemma strip_trailing (c : ascii) (s : string) :
  Py.isspace c = true ->
  Py.strip (s ++ String c EmptyString) = Py.strip s.
Proof.
  intros Hc. unfold Py.strip, Py.lstrip.
  induction s as [|x s IH]; cbn [append Py.lstrip_with].
  - rewrite Hc. reflexivity.
  - destruct (Py.isspace x); [exact IH|].
    apply (rstrip_trailing c (String x s) Hc).
Qed.

(** ** Sample records *)

Lemma sample_line_counts : record_with_counts sample_line 30 10 40.
Proof.
  exists "GT:AD:DP", "0/1:30,10:40", 1%nat, 2%nat, "30,10", "30", "10", "40".
  repeat split; vm_compute; reflexivity.
Qed.

Lemma indented_line_counts : record_with_counts indented_line 30 10 40.
Proof.
  exists "GT:AD:DP", "0/1:30,10:40", 1%nat, 2%nat, "30,10", "30", "10", "40".
  repeat split; vm_compute; reflexivity.
Qed.

Lemma negative_line_counts : record_with_counts negative_line 30 (-10) 40.
Proof.
  exists "GT:AD:DP", "0/1:30,-10:40", 1%nat, 2%nat, "30,-10", "30", "-10", "40".
  repeat split; vm_compute; reflexivity.
Qed.

Lemma excess_line_counts : record_with_counts excess_line 30 60 40.
Proof.
  exists "GT:AD:DP", "0/1:30,60:40", 1%nat, 2%nat, "30,60", "30", "60", "40".
  repeat split; vm_compute; reflexivity.
Qed.

Lemma zero_depth_line_counts : record_with_counts zero_depth_line 0 0 0.
Proof.
  exists "GT:AD:DP", "0/0:0,0:0", 1%nat, 2%nat, "0,0", "0", "0", "0".
  repeat split; vm_compute; reflexivity.
Qed.

Lemma huge_line_counts : record_with_counts huge_line 0 (10 ^ 307) 1.
Proof.
  exists "GT:AD:DP", ("0/1:0," ++ String "1" (zeros 307) ++ ":1"),
         1%nat, 2%nat, ("0," ++ String "1" (zeros 307)),
         "0", (String "1" (zeros 307)), "1".
  repeat split; vm_compute; reflexivity.
Qed.

(** The scenario of the specification: 30,10 out of 40 is 25.00%. *)
Example sample_line_row :
  Calculator.process_line "sample.tab" sample_line =
  Calculator.Written (sample_text ++ String Py.TAB "25.00%"
                        ++ String Py.LF EmptyString).
Proof. vm_compute. reflexivity. Qed.

(** ** The calculator: claims *)

(** C1, as the code has it.  For every line whose field list (the line
    with leading and trailing whitespace removed, split on tabs) has
    entries 8 and 9, whose FORMAT entry names AD and DP, whose AD value is
    two comma-separated integers r,a and whose DP value is a non-zero
    integer d such that 100*a/d does not exceed the range of a float,
    [compute_allele_frequency] writes exactly one string for the line: the
    line without its leading and trailing whitespace, a tab, 100*a/d
    formatted with two decimals, a percent sign and a newline; nothing is
    printed for the line. *)
Theorem C1_frequency_row_written
    (input_file line : string) (r a d : Z) (rest : list string) :
  record_with_counts line r a d ->
  d <> 0 ->
  Py.true_div (100 * a) d <> Raise OverflowError ->
  exists x,
    Py.true_div (100 * a) d = Ok x /\
    Calculator.process_line input_file line =
      Calculator.Written
        (Py.strip line ++ String Py.TAB (Py.format_2f x)
           ++ String "%" (String Py.LF EmptyString)) /\
    Calculator.compute_allele_frequency input_file (line :: rest) =
      let after := Calculator.compute_allele_frequency input_file rest in
      Calculator.Run
        ((Py.strip line ++ String Py.TAB (Py.format_2f x)
            ++ String "%" (String Py.LF EmptyString))
           :: Calculator.f_out after)
        (Calculator.stdout after) (Calculator.raised after).
Proof.
  intros Hrec Hd Hfin.
  pose proof (process_line_counts input_file line r a d Hrec) as Hline.
  destruct (Py.true_div (100 * a) d) as [x|e] eqn:Hdiv.
  - exists x. cbn in Hline. split; [reflexivity|]. split; [exact Hline|].
    cbn [Calculator.compute_allele_frequency]. rewrite Hline. reflexivity.
  - exfalso. destruct (true_div_raises _ _ _ Hdiv) as [[H0 _]|[_ He]].
    + contradiction.
    + subst e. now apply Hfin.
Qed.

(** The scenario [a = 10], [d = 40]: the appended column is [25.00%]. *)
Lemma C1_frequency_row_written_witness :
  exists x,
    Py.true_div (100 * 10) 40 = Ok x /\
    Calculator.process_line "sample.tab" sample_line =
      Calculator.Written
        (Py.strip sample_line ++ String Py.TAB (Py.format_2f x)
           ++ String "%" (String Py.LF EmptyString)) /\
    Calculator.compute_allele_frequency "sample.tab" (sample_line :: []) =
      let after := Calculator.compute_allele_frequency "sample.tab" [] in
      Calculator.Run
        ((Py.strip sample_line ++ String Py.TAB (Py.format_2f x)
            ++ String "%" (String Py.LF EmptyString))
           :: Calculator.f_out after)
        (Calculator.stdout after) (Calculator.raised after).
Proof.
  apply (C1_frequency_row_written "sample.tab" sample_line 30 10 40 []).
  - exact sample_line_counts.
  - discriminate.
  - vm_compute. discriminate.
Defined.

(** C1 as stated fails twice.  A record after a leading blank is written
    without the blank, so the row is not the input line followed by the
    new column; and a record whose alternate count is ten to the power
    307, with depth 1, leaves the loop with [OverflowError] and nothing is
    written for it. *)
Lemma C1_counterexample :
  (record_with_counts indented_line 30 10 40 /\
   Calculator.process_line "sample.tab" indented_line <>
     Calculator.Written (indented_text ++ String Py.TAB "25.00%"
                           ++ String Py.LF EmptyString))
  /\
  (record_with_counts huge_line 0 (10 ^ 307) 1 /\
   Calculator.process_line "sample.tab" huge_line =
     Calculator.Uncaught OverflowError).
Proof.
  split; split.
  - exact indented_line_counts.
  - vm_compute. discriminate.
  - exact huge_line_counts.
  - vm_compute. reflexivity.
Qed.

(** C2.  A row of two columns, as the extractor writes them, ends the
    run over the file with [IndexError]: nothing is printed for it and
    the record after it is never read. *)
Theorem C2_short_row_ends_run :
  Calculator.process_line "sample.tab" two_column_line =
    Calculator.Uncaught IndexError /\
  Calculator.compute_allele_frequency "sample.tab"
    [two_column_line; sample_line] =
    Calculator.Run [] [] (Some IndexError).
Proof. split; vm_compute; reflexivity. Qed.

(** C3, as the code has it.  For every line that reaches the division
    (its field list has entries 8 and 9, FORMAT names AD and DP, the AD
    value is two comma-separated integers) and whose DP value is the
    integer 0, the division raises [ZeroDivisionError], the [except]
    clause does not catch it, and the run over the file ends there: what
    the earlier lines wrote and printed stays, the later lines are not
    processed. *)
Theorem C3_zero_depth_ends_run
    (input_file line : string) (r a : Z) (before rest : list string) :
  record_with_counts line r a 0 ->
  Calculator.raised (Calculator.compute_allele_frequency input_file before)
    = None ->
  Calculator.process_line input_file line =
    Calculator.Uncaught ZeroDivisionError /\
  Calculator.compute_allele_frequency input_file (before ++ line :: rest) =
    let done := Calculator.compute_allele_frequency input_file before in
    Calculator.Run (Calculator.f_out done) (Calculator.stdout done)
                   (Some ZeroDivisionError).
Proof.
  intros Hrec Hbefore.
  assert (Hline : Calculator.process_line input_file line =
                  Calculator.Uncaught ZeroDivisionError).
  { rewrite (process_line_counts input_file line r a 0 Hrec).
    rewrite true_div_zero. reflexivity. }
  split; [exact Hline|].
  rewrite (run_app input_file before (line :: rest) Hbefore).
  cbn [Calculator.compute_allele_frequency]. rewrite Hline.
  cbn. now rewrite !app_nil_r.
Qed.

Lemma C3_zero_depth_ends_run_witness :
  Calculator.process_line "sample.tab" zero_depth_line =
    Calculator.Uncaught ZeroDivisionError /\
  Calculator.compute_allele_frequency "sample.tab"
    ([sample_line] ++ zero_depth_line :: [sample_line]) =
    let done := Calculator.compute_allele_frequency "sample.tab" [sample_line] in
    Calculator.Run (Calculator.f_out done) (Calculator.stdout done)
                   (Some ZeroDivisionError).
Proof.
  apply (C3_zero_depth_ends_run "sample.tab" zero_depth_line 0 0
           [sample_line] [sample_line]).
  - exact zero_depth_line_counts.
  - vm_compute. reflexivity.
Defined.

(** C4, as the code has it.  For every line whose field list (the line
    without its leading and trailing whitespace, split on tabs) has
    entries 8 and 9 and whose FORMAT entry, entry 8 of that list, lacks
    the name AD or lacks the name DP, the line is skipped: nothing is
    written for it, the message naming the line and the input file is
    printed, and the run continues with the next line. *)
Theorem C4_missing_name_skipped
    (input_file line format_column sample_column : string)
    (rest : list string) :
  nth_error (Calculator.fields_of line) 8 = Some format_column ->
  nth_error (Calculator.fields_of line) 9 = Some sample_column ->
  ~ In "AD" (Py.split ":" format_column)
    \/ ~ In "DP" (Py.split ":" format_column) ->
  Calculator.process_line input_file line =
    Calculator.Logged
      ("Error processing line: " ++ Py.strip line ++ " in " ++ input_file) /\
  Calculator.compute_allele_frequency input_file (line :: rest) =
    let after := Calculator.compute_allele_frequency input_file rest in
    Calculator.Run
      (Calculator.f_out after)
      (("Error processing line: " ++ Py.strip line ++ " in " ++ input_file)
         :: Calculator.stdout after)
      (Calculator.raised after).
Proof.
  intros H8 H9 Hlack.
  assert (Hline : Calculator.process_line input_file line =
                  Calculator.Logged
                    (Calculator.error_message input_file line)).
  { unfold Calculator.process_line, Py.getitem. rewrite H8, H9.
    unfold Calculator.try_block.
    destruct Hlack as [Had|Hdp].
    - rewrite (index_absent _ _ Had). reflexivity.
    - rewrite (index_absent _ _ Hdp).
      destruct (Py.index "AD" (Py.split ":" format_column)) as [i|e] eqn:Had.
      + reflexivity.
      + apply index_raises in Had. subst e. reflexivity. }
  split; [exact Hline|].
  cbn [Calculator.compute_allele_frequency]. rewrite Hline. reflexivity.
Qed.

(** The boundary case of the specification: FORMAT is [GT:AD]. *)
Lemma C4_missing_name_skipped_witness :
  Calculator.process_line "sample.tab" no_dp_line =
    Calculator.Logged
      ("Error processing line: " ++ Py.strip no_dp_line ++ " in "
         ++ "sample.tab") /\
  Calculator.compute_allele_frequency "sample.tab" (no_dp_line :: [sample_line]) =
    let after := Calculator.compute_allele_frequency "sample.tab" [sample_line] in
    Calculator.Run
      (Calculator.f_out after)
      (("Error processing line: " ++ Py.strip no_dp_line ++ " in "
          ++ "sample.tab") :: Calculator.stdout after)
      (Calculator.raised after).
Proof.
  apply (C4_missing_name_skipped "sample.tab" no_dp_line "GT:AD" "0/1:30,10"
           [sample_line]).
  - vm_compute. reflexivity.
  - vm_compute. reflexivity.
  - right. vm_compute. intros [H|[H|H]]; try discriminate H. exact H.
Defined.

(** C6, as the code has it.  For every line that is processed
    successfully, the string written is the line without its leading and
    trailing whitespace, then a tab, one more column and a newline; the
    columns of the row are the entries of the line's field list,
    unchanged and in order, followed by that one column. *)
Theorem C6_row_keeps_fields (input_file line out : string) :
  Calculator.process_line input_file line = Calculator.Written out ->
  exists column,
    out = Py.strip line ++ String Py.TAB column
            ++ String Py.LF EmptyString /\
    Py.split Py.TAB (Py.strip line ++ String Py.TAB column) =
      (Calculator.fields_of line ++ [column])%list.
Proof.
  intros Hout. destruct (written_row input_file line out Hout) as [x ->].
  exists (Py.format_2f x ++ "%"). split.
  - unfold frequency_row. cbn [append]. now rewrite append_assoc.
  - rewrite split_app_sep.
    rewrite (split_no_sep Py.TAB _ (frequency_column_clean x)).
    reflexivity.
Qed.

Lemma C6_row_keeps_fields_witness :
  exists column,
    (sample_text ++ String Py.TAB "25.00%" ++ String Py.LF EmptyString) =
      Py.strip sample_line ++ String Py.TAB column
        ++ String Py.LF EmptyString /\
    Py.split Py.TAB (Py.strip sample_line ++ String Py.TAB column) =
      (Calculator.fields_of sample_line ++ [column])%list.
Proof.
  apply (C6_row_keeps_fields "sample.tab" sample_line).
  vm_compute. reflexivity.
Defined.

(** C6 as stated fails on a record after a leading blank: the line
    trimmed of trailing whitespace still starts with the blank, the row
    written does not, so the row is not the trimmed line followed by one
    more column. *)
Lemma C6_counterexample :
  exists out,
    Calculator.process_line "sample.tab" indented_line =
      Calculator.Written out /\
    Py.rstrip indented_line = indented_text /\
    forall column,
      out <> Py.rstrip indented_line ++ String Py.TAB column
               ++ String Py.LF EmptyString.
Proof.
  exists (sample_text ++ String Py.TAB "25.00%" ++ String Py.LF EmptyString).
  split; [vm_compute; reflexivity|].
  split; [vm_compute; reflexivity|].
  intros column. vm_compute. discriminate.
Qed.

(** C9.  Whitespace at the end of a line, tabs included, is removed
    before the line is split, so a trailing empty column never reaches
    the field list.  The line of ten columns whose tenth column is empty
    has a field list of nine entries and is handled as the nine-column
    row is: the subscript [fields[9]] raises [IndexError]. *)
Theorem C9_trailing_empty_column_dropped :
  (forall text,
     Calculator.fields_of (text ++ String Py.TAB EmptyString) =
     Calculator.fields_of text) /\
  List.length (Py.split Py.TAB empty_sample_text) = 10%nat /\
  nth_error (Py.split Py.TAB empty_sample_text) 9 = Some EmptyString /\
  List.length (Calculator.fields_of (terminated empty_sample_text)) = 9%nat /\
  Calculator.fields_of (terminated empty_sample_text) =
    Calculator.fields_of (terminated nine_column_text) /\
  forall input_file,
    Calculator.process_line input_file (terminated empty_sample_text) =
      Calculator.Uncaught IndexError /\
    Calculator.process_line input_file (terminated empty_sample_text) =
      Calculator.process_line input_file (terminated nine_column_text).
Proof.
  split.
  { intros text. unfold Calculator.fields_of.
    now rewrite strip_trailing. }
  split; [vm_compute; reflexivity|].
  split; [vm_compute; reflexivity|].
  split; [vm_compute; reflexivity|].
  split; [vm_compute; reflexivity|].
  intros input_file. split.
  - apply short_row_uncaught. vm_compute. lia.
  - rewrite !short_row_uncaught; [reflexivity | |]; vm_compute; lia.
Qed.

(** C10, as the code has it.  The counts are not checked against any
    range: for every readable record with counts r,a and a non-zero depth
    d such that 100*a/d does not exceed the range of a float, whatever
    the sign of a and however a compares with d, the row is written and
    no diagnostic is printed for the line; a negative quotient is written
    with its minus sign. *)
Theorem C10_no_range_check
    (input_file line : string) (r a d : Z) (rest : list string) :
  record_with_counts line r a d ->
  d <> 0 ->
  Py.true_div (100 * a) d <> Raise OverflowError ->
  exists x,
    Py.true_div (100 * a) d = Ok x /\
    Py.neg x = xorb (a <? 0) (d <? 0) /\
    let after := Calculator.compute_allele_frequency input_file rest in
    let current := Calculator.compute_allele_frequency input_file (line :: rest) in
    Calculator.f_out current = frequency_row line x :: Calculator.f_out after /\
    Calculator.stdout current = Calculator.stdout after.
Proof.
  intros Hrec Hd Hfin.
  pose proof (process_line_counts input_file line r a d Hrec) as Hline.
  destruct (Py.true_div (100 * a) d) as [x|e] eqn:Hdiv.
  - exists x. cbn in Hline. split; [reflexivity|]. split.
    + revert Hdiv. unfold Py.true_div.
      destruct (d =? 0); [discriminate|].
      replace (100 * a <? 0) with (a <? 0)
        by (destruct (Z.ltb_spec a 0), (Z.ltb_spec (100 * a) 0); lia).
      destruct (Z.abs (100 * a) =? 0).
      * intros H. inversion H. reflexivity.
      * destruct (Py.scaled _ _ (Z.log2 _ - Z.log2 _ - 53)) as [p q].
        destruct (Py.scaled _ _ (Z.max _ _)) as [p' q'].
        destruct (_ || _); [discriminate|].
        intros H. inversion H. reflexivity.
    + cbn [Calculator.compute_allele_frequency]. rewrite Hline.
      cbn. split; reflexivity.
  - exfalso. destruct (true_div_raises _ _ _ Hdiv) as [[H0 _]|[_ He]].
    + contradiction.
    + subst e. now apply Hfin.
Qed.

(** The two percentages outside 0% to 100% that the claim names. *)
Example negative_line_row :
  Calculator.compute_allele_frequency "sample.tab" [negative_line] =
  Calculator.Run
    [Py.strip negative_line ++ String Py.TAB "-25.00%"
       ++ String Py.LF EmptyString] [] None.
Proof. vm_compute. reflexivity. Qed.

Example excess_line_row :
  Calculator.compute_allele_frequency "sample.tab" [excess_line] =
  Calculator.Run
    [Py.strip excess_line ++ String Py.TAB "150.00%"
       ++ String Py.LF EmptyString] [] None.
Proof. vm_compute. reflexivity. Qed.

Lemma C10_no_range_check_witness :
  (exists x,
    Py.true_div (100 * -10) 40 = Ok x /\
    Py.neg x = xorb (-10 <? 0) (40 <? 0) /\
    let after := Calculator.compute_allele_frequency "sample.tab" [] in
    let current := Calculator.compute_allele_frequency "sample.tab" [negative_line] in
    Calculator.f_out current = frequency_row negative_line x :: Calculator.f_out after /\
    Calculator.stdout current = Calculator.stdout after)
  /\
  (exists x,
    Py.true_div (100 * 60) 40 = Ok x /\
    Py.neg x = xorb (60 <? 0) (40 <? 0) /\
    let after := Calculator.compute_allele_frequency "sample.tab" [] in
    let current := Calculator.compute_allele_frequency "sample.tab" [excess_line] in
    Calculator.f_out current = frequency_row excess_line x :: Calculator.f_out after /\
    Calculator.stdout current = Calculator.stdout after).
Proof.
  split.
  - apply (C10_no_range_check "sample.tab" negative_line 30 (-10) 40 []).
    + exact negative_line_counts.
    + discriminate.
    + vm_compute. discriminate.
  - apply (C10_no_range_check "sample.tab" excess_line 30 60 40 []).
    + exact excess_line_counts.
    + discriminate.
    + vm_compute. discriminate.
Defined.

(** C10 as stated fails on the record whose alternate count is ten to
    the power 307, with depth 1: the counts parse and the depth is not
    zero, yet nothing is written, the division raises [OverflowError] and
    the run ends. *)
Lemma C10_counterexample :
  record_with_counts huge_line 0 (10 ^ 307) 1 /\
  1 <> 0 /\
  Calculator.compute_allele_frequency "sample.tab" [huge_line] =
    Calculator.Run [] [] (Some OverflowError).
Proof.
  split; [exact huge_line_counts|].
  split; [discriminate|].
  vm_compute. reflexivity.
Qed.

(** ** Facts about the extractor *)

Lemma endswith_app (suf base : string) :
  Py.endswith suf (base ++ suf) = true.
Proof.
  induction base as [|c base IH]; cbn [append].
  - destruct suf; cbn [Py.endswith]; now rewrite String.eqb_refl.
  - cbn [Py.endswith]. rewrite IH. apply orb_true_r.
Qed.

(** An occurrence of [.vcf] cannot start inside [s] and end inside a
    [.vcf] that follows [s]. *)
Lemma vcf_no_straddle (s : string) :
  s <> EmptyString ->
  String.prefix ".vcf" s = false ->
  String.prefix ".vcf" (s ++ ".vcf") = false.
Proof.
  intros Hne.
  destruct s as [|c1 [|c2 [|c3 [|c4 s]]]]; [contradiction| | | |];
    cbn [append String.prefix];
    repeat match goal with
           | |- context [ascii_dec ?a ?b] => destruct (ascii_dec a b); subst
           end;
    try discriminate; auto.
  destruct s; discriminate.
Qed.

(** When [.vcf] occurs in a name only as its suffix, replacing every
    occurrence replaces the suffix. *)
Lemma replace_vcf_suffix (base : string) :
  Py.contains ".vcf" base = false ->
  Py.replace ".vcf" ".tab" (base ++ ".vcf") = base ++ ".tab".
Proof.
  unfold Py.replace. induction base as [|c base IH].
  - intros _. vm_compute. reflexivity.
  - cbn [Py.contains]. intros H. apply orb_false_iff in H.
    destruct H as [Hhere Hlater].
    change ((String c base ++ ".vcf")%string)
      with (String c (base ++ ".vcf")).
    cbn [Py.replace_from].
    change (String c (base ++ ".vcf")) with ((String c base ++ ".vcf")%string).
    rewrite (vcf_no_straddle (String c base)); [|discriminate|exact Hhere].
    cbn [append]. now rewrite (IH Hlater).
Qed.

Lemma no_slash_start (base suffix : string) :
  Py.contains "/" base = false ->
  Py.startswith "/" suffix = false ->
  Py.startswith "/" (base ++ suffix) = false.
Proof.
  destruct base as [|c base]; [intros _ H; exact H|].
  unfold Py.startswith. cbn [Py.contains append String.prefix].
  destruct (ascii_dec "/" c); [|reflexivity].
  destruct base; discriminate.
Qed.

Lemma console_main (entries : list (string * list string)) :
  Extractor.console (Extractor.main entries) =
  map (fun entry => progress_line (fst entry)) (filter is_vcf entries).
Proof.
  induction entries as [|[filename content] entries IH]; [reflexivity|].
  cbn [Extractor.main filter]. unfold is_vcf at 1. cbn [fst].
  destruct (Py.endswith ".vcf" filename); cbn [Extractor.console map fst].
  - now rewrite IH.
  - exact IH.
Qed.

(** ** The extractor: claims *)

(** C5, as the code has it.  For every line that does not start with
    [##] and whose field list (the line without leading and trailing
    whitespace, split on tabs) has at least two entries, the string
    written is entry 0 of that list, a tab, entry 1 and a newline: both
    entries as they are, the other entries dropped, and the line written
    has exactly two columns. *)
Theorem C5_first_two_fields_kept
    (line f0 f1 : string) (more rest : list string) :
  Py.startswith "##" line = false ->
  Py.split Py.TAB (Py.strip line) = f0 :: f1 :: more ->
  Extractor.extract_line line =
    Some (f0 ++ String Py.TAB f1 ++ String Py.LF EmptyString) /\
  Py.split Py.TAB (f0 ++ String Py.TAB f1) = [f0; f1] /\
  Extractor.extract_vcf_info (line :: rest) =
    (f0 ++ String Py.TAB f1 ++ String Py.LF EmptyString)
      :: Extractor.extract_vcf_info rest.
Proof.
  intros Hmeta Hfields.
  assert (Hline : Extractor.extract_line line =
                  Some (f0 ++ String Py.TAB f1 ++ String Py.LF EmptyString)).
  { unfold Extractor.extract_line. rewrite Hmeta, Hfields.
    destruct (Py.startswith "#CHROM" line);
      cbn [Py.slice_to firstn Py.join append];
      now rewrite append_assoc. }
  split; [exact Hline|]. split.
  - pose proof (split_fields_clean Py.TAB (Py.strip line)) as Hclean.
    rewrite Hfields in Hclean.
    inversion Hclean as [|? ? H0 Htail]; subst.
    inversion Htail as [|? ? H1 _]; subst.
    rewrite split_app_sep, (split_no_sep _ _ H0), (split_no_sep _ _ H1).
    reflexivity.
  - cbn [Extractor.extract_vcf_info]. now rewrite Hline.
Qed.

(** The scenario of the specification: [chr1\t12345\tA\tG...] becomes
    [chr1\t12345]. *)
Lemma C5_first_two_fields_kept_witness :
  Extractor.extract_line vcf_line =
    Some ("chr1" ++ String Py.TAB "12345" ++ String Py.LF EmptyString) /\
  Py.split Py.TAB ("chr1" ++ String Py.TAB "12345") = ["chr1"; "12345"] /\
  Extractor.extract_vcf_info (vcf_line :: []) =
    ("chr1" ++ String Py.TAB "12345" ++ String Py.LF EmptyString)
      :: Extractor.extract_vcf_info [].
Proof.
  apply (C5_first_two_fields_kept vcf_line "chr1" "12345" ["."; "A"; "G"] []).
  - vm_compute. reflexivity.
  - vm_compute. reflexivity.
Defined.

(** C7, as the code has it.  The output name is the file name with every
    occurrence of [.vcf] replaced by [.tab].  For every name of a
    directory entry that ends with [.vcf] and holds no other occurrence
    of [.vcf], the output path is the name without its trailing [.vcf],
    followed by [.tab], in the directory [.]. *)
Theorem C7_suffix_replaced (base : string) :
  Py.contains "/" base = false ->
  Py.contains ".vcf" base = false ->
  Py.endswith ".vcf" (base ++ ".vcf") = true /\
  Extractor.output_tab (base ++ ".vcf") = "./" ++ base ++ ".tab".
Proof.
  intros Hslash Hvcf. split; [apply endswith_app|].
  unfold Extractor.output_tab, Extractor.directory_path.
  rewrite (replace_vcf_suffix base Hvcf).
  unfold Py.path_join.
  rewrite (no_slash_start base ".tab" Hslash eq_refl).
  reflexivity.
Qed.

Lemma C7_suffix_replaced_witness :
  Py.endswith ".vcf" ("sample_01" ++ ".vcf") = true /\
  Extractor.output_tab ("sample_01" ++ ".vcf") = "./" ++ "sample_01" ++ ".tab".
Proof.
  apply (C7_suffix_replaced "sample_01").
  - vm_compute. reflexivity.
  - vm_compute. reflexivity.
Defined.

(** C7 as stated fails on a name that holds [.vcf] twice: both
    occurrences are replaced, not only the suffix. *)
Lemma C7_counterexample :
  Py.endswith ".vcf" ("calls.vcf.sorted" ++ ".vcf") = true /\
  Extractor.output_tab ("calls.vcf.sorted" ++ ".vcf") =
    "./calls.tab.sorted.tab" /\
  Extractor.output_tab ("calls.vcf.sorted" ++ ".vcf") <>
    Py.path_join "." ("calls.vcf.sorted" ++ ".tab").
Proof.
  split; [vm_compute; reflexivity|].
  split; [vm_compute; reflexivity|].
  vm_compute. discriminate.
Qed.

(** C8, as the code has it.  The driver of the extractor prints one line
    [Processed <input path> -> <output path>] for each [.vcf] file, in
    the order of the listing, and nothing else: as many lines as files
    processed, and no line that sums them up. *)
Theorem C8_one_progress_line_per_file (entries : list (string * list string)) :
  Extractor.console (Extractor.main entries) =
    map (fun entry => progress_line (fst entry)) (filter is_vcf entries) /\
  List.length (Extractor.console (Extractor.main entries)) =
    List.length (filter is_vcf entries) /\
  List.length (Extractor.files (Extractor.main entries)) =
    List.length (filter is_vcf entries).
Proof.
  split; [apply console_main|]. split.
  - rewrite console_main. apply length_map.
  - induction entries as [|[filename content] entries IH]; [reflexivity|].
    cbn [Extractor.main filter]. unfold is_vcf at 1. cbn [fst].
    destruct (Py.endswith ".vcf" filename); cbn [Extractor.files List.length].
    + now rewrite IH.
    + exact IH.
Qed.

(** C8 as stated fails on a directory with three [.vcf] files: three
    progress lines are printed and none of them holds the count 3. *)
Lemma C8_counterexample :
  List.length (filter is_vcf three_vcf_directory) = 3%nat /\
  Extractor.console (Extractor.main three_vcf_directory) =
    ["Processed ./a.vcf -> ./a.tab";
     "Processed ./b.vcf -> ./b.tab";
     "Processed ./c.vcf -> ./c.tab"] /\
  forall msg,
    In msg (Extractor.console (Extractor.main three_vcf_directory)) ->
    Py.contains (Py.decimal 3) msg = false.
Proof.
  split; [vm_compute; reflexivity|].
  split; [vm_compute; reflexivity|].
  intros msg Hin. vm_compute in Hin.
  destruct Hin as [<-|[<-|[<-|[]]]]; vm_compute; reflexivity.
Qed.

(** ** More facts about the built-ins *)

Section SplitJoin.

Variable sep : ascii.

Lemma join_cons (x : string) (l : list string) :
  l <> [] ->
  Py.join (String sep EmptyString) (x :: l) =
  x ++ String sep (Py.join (String sep EmptyString) l).
Proof. destruct l; [contradiction | reflexivity]. Qed.

(** Joining the fields of a string gives the string back. *)
Lemma join_split (s : string) :
  Py.join (String sep EmptyString) (Py.split sep s) = s.
Proof.
  induction s as [|c s IH]; [reflexivity|].
  cbn [Py.split]. destruct (Ascii.eqb_spec c sep) as [->|Hne].
  - rewrite join_cons by apply split_not_nil. now rewrite IH.
  - pose proof (split_not_nil sep s) as Hnil.
    destruct (Py.split sep s) as [|h tl]; [contradiction|].
    destruct tl as [|h' tl].
    + cbn in IH |- *. now rewrite IH.
    + rewrite join_cons in IH |- * by discriminate.
      cbn [append]. now rewrite IH.
Qed.

(** Splitting a joined list of fields without separator gives the list
    back. *)
Lemma split_join (l : list string) :
  l <> [] ->
  Forall (fun x => all_chars (differs_from sep) x = true) l ->
  Py.split sep (Py.join (String sep EmptyString) l) = l.
Proof.
  induction l as [|x l IH]; [contradiction|].
  intros _ Hclean. inversion Hclean as [|? ? Hx Hl]; subst.
  destruct l as [|y l].
  - cbn. now apply split_no_sep.
  - rewrite join_cons by discriminate.
    rewrite split_app_sep, (split_no_sep sep x Hx), IH;
      [reflexivity | discriminate | exact Hl].
Qed.

End SplitJoin.

Lemma firstn_all_short {A : Type} (n : nat) (l : list A) :
  (List.length l <= n)%nat -> firstn n l = l.
Proof.
  revert n. induction l as [|x l IH]; intros n Hn.
  - now destruct n.
  - destruct n as [|n]; cbn in Hn; [lia|].
    cbn. rewrite IH; [reflexivity | lia].
Qed.

(** ** More facts about the extractor *)

(** The test for the header line changes nothing: both branches write
    the first two fields. *)
Lemma extract_line_retained (line : string) :
  Py.startswith "##" line = false ->
  Extractor.extract_line line =
  Some (tabbed (firstn 2 (Py.split Py.TAB (Py.strip line)))
        ++ String Py.LF EmptyString).
Proof.
  intros H. unfold Extractor.extract_line. rewrite H.
  destruct (Py.startswith "#CHROM" line); reflexivity.
Qed.

Lemma extract_line_meta (line : string) :
  Py.startswith "##" line = true -> Extractor.extract_line line = None.
Proof. intros H. unfold Extractor.extract_line. now rewrite H. Qed.

Lemma extract_vcf_info_app (before after : list string) :
  Extractor.extract_vcf_info (before ++ after) =
  (Extractor.extract_vcf_info before ++ Extractor.extract_vcf_info after)%list.
Proof.
  induction before as [|line before IH]; [reflexivity|].
  cbn [app Extractor.extract_vcf_info].
  destruct (Extractor.extract_line line); [cbn; now rewrite IH | exact IH].
Qed.

(** X1.  A line that starts with [##] leaves no trace in the output:
    the file with the line and the file without it give the same rows. *)
Theorem X1_meta_line_leaves_no_row (before after : list string) (line : string) :
  Py.startswith "##" line = true ->
  Extractor.extract_vcf_info (before ++ line :: after) =
  Extractor.extract_vcf_info (before ++ after).
Proof.
  intros Hmeta. rewrite !extract_vcf_info_app.
  cbn [Extractor.extract_vcf_info]. now rewrite (extract_line_meta line Hmeta).
Qed.

Lemma X1_meta_line_leaves_no_row_witness :
  Extractor.extract_vcf_info ([vcf_line] ++ "##contig=<ID=chr1>" :: [vcf_line]) =
  Extractor.extract_vcf_info ([vcf_line] ++ [vcf_line]).
Proof.
  apply (X1_meta_line_leaves_no_row [vcf_line] [vcf_line] "##contig=<ID=chr1>").
  vm_compute. reflexivity.
Defined.

(** X2.  The extractor writes exactly one row for every line that does
    not start with [##], whatever the line holds: the number of rows is
    the number of such lines. *)
Theorem X2_one_row_per_retained_line (infile : list string) :
  List.length (Extractor.extract_vcf_info infile) =
  List.length (retained infile).
Proof.
  induction infile as [|line infile IH]; [reflexivity|].
  cbn [Extractor.extract_vcf_info retained filter].
  destruct (Py.startswith "##" line) eqn:Hmeta.
  - rewrite (extract_line_meta line Hmeta). exact IH.
  - rewrite (extract_line_retained line Hmeta). cbn. now rewrite IH.
Qed.

(** The columns of a row of the extractor. *)
Lemma extract_line_columns (line out : string) :
  Extractor.extract_line line = Some out ->
  exists columns,
    out = tabbed columns ++ String Py.LF EmptyString /\
    columns = firstn 2 (Py.split Py.TAB (Py.strip line)) /\
    Py.split Py.TAB (tabbed columns) = columns /\
    (1 <= List.length columns <= 2)%nat.
Proof.
  intros Hout.
  destruct (Py.startswith "##" line) eqn:Hmeta.
  { rewrite (extract_line_meta line Hmeta) in Hout. discriminate. }
  rewrite (extract_line_retained line Hmeta) in Hout.
  inversion Hout; subst out; clear Hout.
  exists (firstn 2 (Py.split Py.TAB (Py.strip line))).
  split; [reflexivity|]. split; [reflexivity|].
  pose proof (split_not_nil Py.TAB (Py.strip line)) as Hnil.
  pose proof (split_fields_clean Py.TAB (Py.strip line)) as Hclean.
  destruct (Py.split Py.TAB (Py.strip line)) as [|f0 [|f1 more]];
    [contradiction| |].
  - split; [|cbn; lia]. apply split_join; [discriminate | exact Hclean].
  - split; [|cbn; lia]. unfold tabbed. apply split_join; [discriminate|].
    inversion Hclean as [|? ? H0 Htl]; subst.
    inversion Htl as [|? ? H1 _]; subst.
    repeat constructor; assumption.
Qed.

(** X3.  Every row the extractor writes is one or two columns joined by
    a tab and ended by a newline: the first two entries of the field list
    of the line, never more, and nothing of the rest of the line. *)
Theorem X3_row_has_at_most_two_columns (line out : string) :
  Extractor.extract_line line = Some out ->
  exists columns,
    out = tabbed columns ++ String Py.LF EmptyString /\
    columns = firstn 2 (Py.split Py.TAB (Py.strip line)) /\
    Py.split Py.TAB (tabbed columns) = columns /\
    (1 <= List.length columns <= 2)%nat.
Proof. exact (extract_line_columns line out). Qed.

Lemma X3_row_has_at_most_two_columns_witness :
  exists columns,
    ("chr1" ++ String Py.TAB "12345" ++ String Py.LF EmptyString) =
      tabbed columns ++ String Py.LF EmptyString /\
    columns = firstn 2 (Py.split Py.TAB (Py.strip vcf_line)) /\
    Py.split Py.TAB (tabbed columns) = columns /\
    (1 <= List.length columns <= 2)%nat.
Proof.
  apply (X3_row_has_at_most_two_columns vcf_line).
  vm_compute. reflexivity.
Defined.

(** X4.  A line with one or two fields that does not start with [##] is
    written whole: the row is the line without its leading and trailing
    whitespace, followed by a newline.  A blank line gives an empty
    row. *)
Theorem X4_short_line_written_whole (line : string) :
  Py.startswith "##" line = false ->
  (List.length (Py.split Py.TAB (Py.strip line)) <= 2)%nat ->
  Extractor.extract_line line =
  Some (Py.strip line ++ String Py.LF EmptyString).
Proof.
  intros Hmeta Hshort. rewrite (extract_line_retained line Hmeta).
  rewrite (firstn_all_short 2 _ Hshort). unfold tabbed.
  now rewrite join_split.
Qed.

Lemma X4_short_line_written_whole_witness :
  Extractor.extract_line (String Py.LF EmptyString) =
    Some (Py.strip (String Py.LF EmptyString) ++ String Py.LF EmptyString) /\
  Extractor.extract_line two_column_line =
    Some (Py.strip two_column_line ++ String Py.LF EmptyString).
Proof.
  split.
  - apply (X4_short_line_written_whole (String Py.LF EmptyString)).
    + vm_compute. reflexivity.
    + vm_compute. lia.
  - apply (X4_short_line_written_whole two_column_line).
    + vm_compute. reflexivity.
    + vm_compute. lia.
Defined.

(** ** More facts about the calculator *)

Lemma unpack_counts_intro (v ref_text alt_text : string) (r a : Z) :
  Py.split "," v = [ref_text; alt_text] ->
  Py.int ref_text = Ok r -> Py.int alt_text = Ok a ->
  Calculator.unpack_counts v = Ok (r, a).
Proof.
  intros Hsp Hr Ha. unfold Calculator.unpack_counts.
  rewrite Hsp. cbn [map]. now rewrite Hr, Ha.
Qed.

Lemma unpack_counts_ok (v : string) (r a : Z) :
  Calculator.unpack_counts v = Ok (r, a) ->
  exists ref_text alt_text,
    Py.split "," v = [ref_text; alt_text] /\
    Py.int ref_text = Ok r /\ Py.int alt_text = Ok a.
Proof.
  unfold Calculator.unpack_counts.
  destruct (Py.split "," v) as [|x [|y [|z l]]]; cbn [map];
    try discriminate.
  - destruct (Py.int x); discriminate.
  - destruct (Py.int x) as [r'|] eqn:Hx; [|discriminate].
    destruct (Py.int y) as [a'|] eqn:Hy; [|discriminate].
    intros H. inversion H; subst. now exists x, y.
  - destruct (Py.int x); [|discriminate].
    destruct (Py.int y); discriminate.
Qed.

Lemma unpack_counts_raises (v : string) (e : exn) :
  Calculator.unpack_counts v = Raise e -> e = ValueError.
Proof.
  unfold Calculator.unpack_counts.
  destruct (Py.split "," v) as [|x [|y [|z l]]]; cbn [map].
  - intros H. now inversion H.
  - destruct (Py.int x); intros H; now inversion H.
  - destruct (Py.int x); [destruct (Py.int y)|]; intros H; now inversion H.
  - destruct (Py.int x); [destruct (Py.int y)|]; intros H; now inversion H.
Qed.

Lemma unpack_counts_wrong_number (v : string) :
  List.length (Py.split "," v) <> 2%nat ->
  Calculator.unpack_counts v = Raise ValueError.
Proof.
  unfold Calculator.unpack_counts.
  destruct (Py.split "," v) as [|x [|y [|z l]]]; cbn [map List.length];
    intros Hlen; try reflexivity.
  - destruct (Py.int x); reflexivity.
  - contradiction.
  - destruct (Py.int x); [destruct (Py.int y)|]; reflexivity.
Qed.

Lemma int_raises (s : string) (e : exn) :
  Py.int s = Raise e -> e = ValueError.
Proof.
  unfold Py.int.
  destruct (match Py.rstrip_with _ _ with EmptyString => _ | String _ _ => _ end);
    intros H; now inversion H.
Qed.

Lemma fields_present (line : string) :
  (10 <= List.length (Calculator.fields_of line))%nat ->
  exists format_column sample_column,
    nth_error (Calculator.fields_of line) 8 = Some format_column /\
    nth_error (Calculator.fields_of line) 9 = Some sample_column.
Proof.
  intros Hlen.
  destruct (nth_error (Calculator.fields_of line) 8) as [fc|] eqn:H8.
  - destruct (nth_error (Calculator.fields_of line) 9) as [sc|] eqn:H9.
    + now exists fc, sc.
    + apply nth_error_None in H9. lia.
  - apply nth_error_None in H8. lia.
Qed.

Section Dichotomy.

Variable input_file : string.

Ltac no_record :=
  intros (r' & a' & d' & fc' & sc' & i' & j' & av' & rt' & alt' & dv'
          & E8 & E9 & Ei & Ej & Eav & Esp & Er & Ea & Edv & Ed).

(** A line with fields 8 and 9 is a readable record, or it is skipped
    with the diagnostic. *)
Lemma readable_or_logged (line : string) :
  (10 <= List.length (Calculator.fields_of line))%nat ->
  (exists r a d, record_with_counts line r a d) \/
  ((~ exists r a d, record_with_counts line r a d) /\
   Calculator.process_line input_file line =
     Calculator.Logged (Calculator.error_message input_file line)).
Proof.
  intros Hlen. destruct (fields_present line Hlen) as (fc & sc & H8 & H9).
  unfold Calculator.process_line, Py.getitem. rewrite H8, H9.
  unfold Calculator.try_block.
  destruct (Py.index "AD" (Py.split ":" fc)) as [i|e] eqn:Hi.
  2:{ right. pose proof (index_raises _ _ _ Hi) as He. subst e.
      split; [|reflexivity]. no_record. congruence. }
  destruct (Py.index "DP" (Py.split ":" fc)) as [j|e] eqn:Hj.
  2:{ right. pose proof (index_raises _ _ _ Hj) as He. subst e.
      split; [|reflexivity]. no_record. congruence. }
  cbn [bind]. unfold Py.getitem.
  destruct (nth_error (Py.split ":" sc) i) as [av|] eqn:Hav.
  2:{ right. split; [|reflexivity]. no_record. congruence. }
  cbn [bind].
  destruct (Calculator.unpack_counts av) as [[r a]|e] eqn:Hun.
  2:{ right. pose proof (unpack_counts_raises _ _ Hun) as He. subst e.
      split; [|reflexivity]. no_record.
      assert (av' = av) by congruence. subst av'.
      pose proof (unpack_counts_intro av rt' alt' r' a' Esp Er Ea).
      congruence. }
  cbn [bind].
  destruct (nth_error (Py.split ":" sc) j) as [dv|] eqn:Hdv.
  2:{ right. split; [|reflexivity]. no_record. congruence. }
  cbn [bind].
  destruct (Py.int dv) as [d|e] eqn:Hd.
  2:{ right. pose proof (int_raises _ _ Hd) as He. subst e.
      split; [|reflexivity]. no_record. congruence. }
  left. exists r, a, d.
  destruct (unpack_counts_ok av r a Hun) as (rt & alt & Hsp & Hr & Ha).
  now exists fc, sc, i, j, av, rt, alt, dv.
Qed.

End Dichotomy.

(** X5.  Every line with at least 10 fields that is not a readable
    record (a name missing from FORMAT, a sample column that is too
    short, an AD value that is not two integers, a DP value that is not
    an integer) is skipped: nothing is written for it, the diagnostic
    naming the line and the file is printed, and the run goes on with the
    next line. *)
Theorem X5_unreadable_record_skipped
    (input_file line : string) (rest : list string) :
  (10 <= List.length (Calculator.fields_of line))%nat ->
  (~ exists r a d, record_with_counts line r a d) ->
  Calculator.process_line input_file line =
    Calculator.Logged
      ("Error processing line: " ++ Py.strip line ++ " in " ++ input_file) /\
  Calculator.compute_allele_frequency input_file (line :: rest) =
    let after := Calculator.compute_allele_frequency input_file rest in
    Calculator.Run
      (Calculator.f_out after)
      (("Error processing line: " ++ Py.strip line ++ " in " ++ input_file)
         :: Calculator.stdout after)
      (Calculator.raised after).
Proof.
  intros Hlen Hnot.
  destruct (readable_or_logged input_file line Hlen) as [Hrec|[_ Hline]];
    [contradiction|].
  split; [exact Hline|].
  cbn [Calculator.compute_allele_frequency]. rewrite Hline. reflexivity.
Qed.

Lemma X5_unreadable_record_skipped_witness :
  Calculator.process_line "sample.tab" short_sample_line =
    Calculator.Logged
      ("Error processing line: " ++ Py.strip short_sample_line ++ " in "
         ++ "sample.tab") /\
  Calculator.compute_allele_frequency "sample.tab"
    (short_sample_line :: [sample_line]) =
    let after := Calculator.compute_allele_frequency "sample.tab" [sample_line] in
    Calculator.Run
      (Calculator.f_out after)
      (("Error processing line: " ++ Py.strip short_sample_line ++ " in "
          ++ "sample.tab") :: Calculator.stdout after)
      (Calculator.raised after).
Proof.
  apply (X5_unreadable_record_skipped "sample.tab" short_sample_line
           [sample_line]).
  - vm_compute. lia.
  - intros (r & a & d & fc & sc & i & j & av & rt & alt & dv
            & E8 & E9 & Ei & Ej & Eav & Esp & Er & Ea & Edv & Ed).
    vm_compute in E8, E9. inversion E8; inversion E9; subst fc sc.
    vm_compute in Ej. inversion Ej; subst j.
    vm_compute in Edv. discriminate Edv.
Defined.

(** X6.  A record whose AD value does not hold exactly two
    comma-separated parts (one count, or the three counts of a site with
    two alternate alleles) is skipped with the diagnostic, whatever its
    other values are. *)
Theorem X6_wrong_number_of_counts_skipped
    (input_file line format_column sample_column ad_value : string)
    (ad_index : nat) :
  nth_error (Calculator.fields_of line) 8 = Some format_column ->
  nth_error (Calculator.fields_of line) 9 = Some sample_column ->
  Py.index "AD" (Py.split ":" format_column) = Ok ad_index ->
  nth_error (Py.split ":" sample_column) ad_index = Some ad_value ->
  List.length (Py.split "," ad_value) <> 2%nat ->
  Calculator.process_line input_file line =
    Calculator.Logged
      ("Error processing line: " ++ Py.strip line ++ " in " ++ input_file).
Proof.
  intros H8 H9 Hi Hav Hlen.
  unfold Calculator.process_line, Py.getitem. rewrite H8, H9.
  unfold Calculator.try_block, Py.getitem. rewrite Hi.
  destruct (Py.index "DP" (Py.split ":" format_column)) as [j|e] eqn:Hj.
  - cbn [bind]. rewrite Hav. cbn [bind].
    rewrite (unpack_counts_wrong_number ad_value Hlen). reflexivity.
  - pose proof (index_raises _ _ _ Hj). subst e. reflexivity.
Qed.

Lemma X6_wrong_number_of_counts_skipped_witness :
  Calculator.process_line "sample.tab" multiallelic_line =
    Calculator.Logged
      ("Error processing line: " ++ Py.strip multiallelic_line ++ " in "
         ++ "sample.tab").
Proof.
  apply (X6_wrong_number_of_counts_skipped "sample.tab" multiallelic_line
           "GT:AD:DP" "1/2:5,30,10:45" "5,30,10" 1).
  - vm_compute. reflexivity.
  - vm_compute. reflexivity.
  - vm_compute. reflexivity.
  - vm_compute. reflexivity.
  - vm_compute. discriminate.
Defined.

(** X7.  A record whose DP value is not an integer (the placeholder
    [.], a decimal fraction, an empty value) is skipped with the
    diagnostic. *)
Theorem X7_depth_not_integer_skipped
    (input_file line format_column sample_column dp_value : string)
    (dp_index : nat) (e : exn) :
  nth_error (Calculator.fields_of line) 8 = Some format_column ->
  nth_error (Calculator.fields_of line) 9 = Some sample_column ->
  Py.index "DP" (Py.split ":" format_column) = Ok dp_index ->
  nth_error (Py.split ":" sample_column) dp_index = Some dp_value ->
  Py.int dp_value = Raise e ->
  Calculator.process_line input_file line =
    Calculator.Logged
      ("Error processing line: " ++ Py.strip line ++ " in " ++ input_file).
Proof.
  intros H8 H9 Hj Hdv Hd.
  assert (Hlen : (10 <= List.length (Calculator.fields_of line))%nat).
  { change (9 < List.length (Calculator.fields_of line))%nat.
    apply nth_error_Some. rewrite H9. discriminate. }
  destruct (readable_or_logged input_file line Hlen) as [Hrec|[_ Hline]];
    [|exact Hline].
  destruct Hrec as (r' & a' & d' & fc' & sc' & i' & j' & av' & rt' & alt'
                    & dv' & E8 & E9 & Ei & Ej & Eav & Esp & Er & Ea & Edv & Ed).
  congruence.
Qed.

Lemma X7_depth_not_integer_skipped_witness :
  Calculator.process_line "sample.tab" missing_depth_line =
    Calculator.Logged
      ("Error processing line: " ++ Py.strip missing_depth_line ++ " in "
         ++ "sample.tab").
Proof.
  apply (X7_depth_not_integer_skipped "sample.tab" missing_depth_line
           "GT:AD:DP" "0/1:30,10:." "." 2 ValueError).
  - vm_compute. reflexivity.
  - vm_compute. reflexivity.
  - vm_compute. reflexivity.
  - vm_compute. reflexivity.
  - vm_compute. reflexivity.
Defined.

(** What can leave the loop. *)
Lemma uncaught_cases (input_file line : string) (e : exn) :
  Calculator.process_line input_file line = Calculator.Uncaught e ->
  (e = IndexError /\ (List.length (Calculator.fields_of line) < 10)%nat)
  \/
  ((10 <= List.length (Calculator.fields_of line))%nat /\
   exists r a d,
     record_with_counts line r a d /\
     Py.true_div (100 * a) d = Raise e /\
     ((e = ZeroDivisionError /\ d = 0) \/ (e = OverflowError /\ d <> 0))).
Proof.
  intros Hline.
  destruct (Nat.lt_ge_cases (List.length (Calculator.fields_of line)) 10)
    as [Hshort|Hlen].
  - left. rewrite (short_row_uncaught input_file line Hshort) in Hline.
    inversion Hline. now split.
  - right. split; [exact Hlen|].
    destruct (readable_or_logged input_file line Hlen)
      as [(r & a & d & Hrec)|[_ Hlog]]; [|congruence].
    exists r, a, d. split; [exact Hrec|].
    rewrite (process_line_counts input_file line r a d Hrec) in Hline.
    destruct (Py.true_div (100 * a) d) as [x|e'] eqn:Hdiv;
      cbn in Hline; [discriminate|].
    destruct (true_div_raises _ _ _ Hdiv) as [[Hd He]|[Hd He]];
      subst e'; cbn in Hline; inversion Hline; subst e;
      (split; [reflexivity|]); [left | right]; now split.
Qed.

(** X8.  One iteration of the loop on a line that was read (the
    stripping, the splitting, the subscripts, the look-up of the names,
    the conversions and the division of lines 44 to 58) ends the run in
    three cases only: with [IndexError], exactly when the line has fewer
    than 10 fields; with [ZeroDivisionError], on a readable record whose
    depth is zero; with [OverflowError], on a readable record whose depth
    is not zero and whose quotient exceeds the range of a float.  A
    [ValueError] of [index], of [int] or of the unpacking, and an
    [IndexError] of [info_values[...]], never end it.  (What the file
    objects themselves may raise while a line is read or written is not
    part of the statement.) *)
Theorem X8_exceptions_that_end_a_run (input_file line : string) (e : exn) :
  Calculator.process_line input_file line = Calculator.Uncaught e ->
  (e = IndexError /\ (List.length (Calculator.fields_of line) < 10)%nat)
  \/
  ((10 <= List.length (Calculator.fields_of line))%nat /\
   exists r a d,
     record_with_counts line r a d /\
     Py.true_div (100 * a) d = Raise e /\
     ((e = ZeroDivisionError /\ d = 0) \/ (e = OverflowError /\ d <> 0))).
Proof. exact (uncaught_cases input_file line e). Qed.

Lemma X8_exceptions_that_end_a_run_witness :
  (ZeroDivisionError = IndexError /\
   (List.length (Calculator.fields_of zero_depth_line) < 10)%nat)
  \/
  ((10 <= List.length (Calculator.fields_of zero_depth_line))%nat /\
   exists r a d,
     record_with_counts zero_depth_line r a d /\
     Py.true_div (100 * a) d = Raise ZeroDivisionError /\
     ((ZeroDivisionError = ZeroDivisionError /\ d = 0)
      \/ (ZeroDivisionError = OverflowError /\ d <> 0))).
Proof.
  apply (X8_exceptions_that_end_a_run "sample.tab" zero_depth_line).
  vm_compute. reflexivity.
Defined.

(** X9.  Any line with fewer than 10 fields, a blank line included,
    ends the run over the file with [IndexError]: what the earlier lines
    wrote and printed stays, nothing is printed for the line, and the
    lines after it are not processed. *)
Theorem X9_short_row_ends_any_run
    (input_file line : string) (before rest : list string) :
  (List.length (Calculator.fields_of line) < 10)%nat ->
  Calculator.raised (Calculator.compute_allele_frequency input_file before)
    = None ->
  Calculator.compute_allele_frequency input_file (before ++ line :: rest) =
    let done := Calculator.compute_allele_frequency input_file before in
    Calculator.Run (Calculator.f_out done) (Calculator.stdout done)
                   (Some IndexError).
Proof.
  intros Hshort Hbefore.
  rewrite (run_app input_file before (line :: rest) Hbefore).
  cbn [Calculator.compute_allele_frequency].
  rewrite (short_row_uncaught input_file line Hshort).
  cbn. now rewrite !app_nil_r.
Qed.

Lemma X9_short_row_ends_any_run_witness :
  Calculator.compute_allele_frequency "sample.tab"
    ([sample_line] ++ blank_line :: [sample_line]) =
    let done := Calculator.compute_allele_frequency "sample.tab" [sample_line] in
    Calculator.Run (Calculator.f_out done) (Calculator.stdout done)
                   (Some IndexError).
Proof.
  apply (X9_short_row_ends_any_run "sample.tab" blank_line
           [sample_line] [sample_line]).
  - vm_compute. lia.
  - vm_compute. reflexivity.
Defined.

(** X10.  A run writes or prints at most once per line, in the order of
    the lines: the rows and the diagnostics together are never more than
    the lines of the file, and exactly as many when the run reaches the
    end of the file; every row is the row of a line of the file and every
    diagnostic names a line of the file. *)
Theorem X10_one_effect_per_line (input_file : string) (f_in : list string) :
  let r := Calculator.compute_allele_frequency input_file f_in in
  (List.length (Calculator.f_out r) + List.length (Calculator.stdout r)
     <= List.length f_in)%nat /\
  (Calculator.raised r = None ->
   (List.length (Calculator.f_out r) + List.length (Calculator.stdout r)
      = List.length f_in)%nat) /\
  (forall row, In row (Calculator.f_out r) ->
     exists line x, In line f_in /\ row = frequency_row line x) /\
  (forall msg, In msg (Calculator.stdout r) ->
     exists line, In line f_in /\
       msg = "Error processing line: " ++ Py.strip line ++ " in "
               ++ input_file).
Proof.
  induction f_in as [|line f_in IH]; cbn zeta in *.
  - cbn. repeat split; try lia; intros ? [].
  - destruct IH as (IHle & IHeq & IHrow & IHmsg).
    cbn [Calculator.compute_allele_frequency].
    destruct (Calculator.process_line input_file line) as [s|m|e] eqn:Hline;
      cbn [Calculator.f_out Calculator.stdout Calculator.raised List.length].
    + split; [lia|]. split; [intros H; specialize (IHeq H); lia|]. split.
      * intros row [<-|Hin].
        -- destruct (written_row input_file line s Hline) as [x ->].
           exists line, x. split; [now left | reflexivity].
        -- destruct (IHrow row Hin) as (l & x & Hl & ->).
           exists l, x. split; [now right | reflexivity].
      * intros msg Hin. destruct (IHmsg msg Hin) as (l & Hl & ->).
        exists l. split; [now right | reflexivity].
    + split; [lia|]. split; [intros H; specialize (IHeq H); lia|]. split.
      * intros row Hin. destruct (IHrow row Hin) as (l & x & Hl & ->).
        exists l, x. split; [now right | reflexivity].
      * intros msg [<-|Hin].
        -- exists line. split; [now left|].
           revert Hline. unfold Calculator.process_line.
           destruct (Py.getitem _ 8); [|discriminate].
           destruct (Py.getitem _ 9); [|discriminate].
           destruct (Calculator.try_block _ _ _) as [?|[]]; cbn;
             intros H; inversion H; reflexivity.
        -- destruct (IHmsg msg Hin) as (l & Hl & ->).
           exists l. split; [now right | reflexivity].
    + split; [cbn; lia|]. split; [discriminate|].
      split; intros ? [].
Qed.

Lemma X10_one_effect_per_line_witness :
  let r := Calculator.compute_allele_frequency "sample.tab"
             [sample_line; no_dp_line; negative_line] in
  (List.length (Calculator.f_out r) + List.length (Calculator.stdout r)
   = List.length [sample_line; no_dp_line; negative_line])%nat.
Proof.
  pose proof (X10_one_effect_per_line "sample.tab"
                [sample_line; no_dp_line; negative_line]) as H.
  cbv zeta in H. destruct H as (_ & Hall & _).
  cbv zeta. apply Hall. vm_compute. reflexivity.
Defined.

(** *** Whole percentages are exact *)

Lemma round_half_even_exact (k D : Z) :
  0 < D -> Py.round_half_even (k * D) D = k.
Proof.
  intros HD. unfold Py.round_half_even.
  rewrite Z.div_mul, Z.mod_mul by lia.
  destruct (Z.ltb_spec D (2 * 0)); [lia|].
  destruct (Z.eqb_spec (2 * 0) D); [lia|]. reflexivity.
Qed.

(** When the divisor divides the dividend and the quotient has at most
    53 bits, the division is exact. *)
Lemma true_div_exact (n d q : Z) :
  d <> 0 -> Z.abs n = q * Z.abs d -> q < 2 ^ 53 ->
  exists e,
    e <= 0 /\
    Py.true_div n d =
      Ok (Py.Float (xorb (n <? 0) (d <? 0)) (q * 2 ^ (- e)) e).
Proof.
  intros Hd Hq Hlt. unfold Py.true_div.
  destruct (Z.eqb_spec d 0) as [|_]; [contradiction|].
  set (N := Z.abs n) in *. set (D := Z.abs d) in *.
  assert (HD : 0 < D) by (unfold D; lia).
  assert (HN : 0 <= N) by (unfold N; lia).
  destruct (Z.eqb_spec N 0) as [HN0|HN0].
  { exists 0. split; [lia|]. assert (q = 0) by nia. subst q. reflexivity. }
  assert (Hq1 : 1 <= q) by nia.
  assert (Hlog : Z.log2 q < 53) by (apply Z.log2_lt_pow2; lia).
  assert (HlogN : Z.log2 N <= Z.log2 q + Z.log2 D + 1).
  { rewrite Hq. apply Z.log2_mul_above; lia. }
  assert (HlogD : Z.log2 D <= Z.log2 N) by (apply Z.log2_le_mono; nia).
  set (e0 := Z.log2 N - Z.log2 D - 53).
  assert (He0 : -53 <= e0 <= 0) by (unfold e0; lia).
  assert (Hpow : forall k, 0 <= k -> 0 < 2 ^ k)
    by (intros; apply Z.pow_pos_nonneg; lia).
  destruct (Py.scaled N D e0) as [a b] eqn:Hs0. cbv beta iota zeta.
  set (e1 := if b * 2 ^ 53 <=? a then e0 + 1 else e0).
  assert (Hbound : -53 <= e1 <= 0).
  { unfold e1. unfold Py.scaled in Hs0.
    destruct (Z.ltb_spec e0 0) as [Hneg|Hpos]; inversion Hs0; subst a b.
    - destruct (D * 2 ^ 53 <=? N * 2 ^ (- e0)); lia.
    - assert (He00 : e0 = 0) by lia. rewrite He00.
      destruct (Z.leb_spec (D * 2 ^ 0 * 2 ^ 53) N) as [Hge|_]; [|lia].
      exfalso. rewrite Z.pow_0_r in Hge. nia. }
  rewrite (Z.max_l e1 (-1074)) by lia.
  exists e1. split; [lia|].
  destruct (Py.scaled N D e1) as [a' b'] eqn:Hs1. cbv beta iota.
  assert (Hm : Py.round_half_even a' b' = q * 2 ^ (- e1)).
  { unfold Py.scaled in Hs1.
    destruct (Z.ltb_spec e1 0) as [Hneg|Hpos]; inversion Hs1; subst a' b'.
    - rewrite Hq.
      replace (q * D * 2 ^ (- e1)) with (q * 2 ^ (- e1) * D) by ring.
      now apply round_half_even_exact.
    - assert (He10 : e1 = 0) by lia. rewrite He10.
      cbn [Z.opp]. rewrite Z.pow_0_r, !Z.mul_1_r, Hq.
      now apply round_half_even_exact. }
  rewrite Hm.
  destruct (Z.ltb_spec 971 e1); [lia|].
  destruct (Z.eqb_spec e1 971); [lia|]. reflexivity.
Qed.

Lemma format_2f_whole (sign : bool) (q e : Z) :
  0 <= q -> e <= 0 ->
  Py.format_2f (Py.Float sign (q * 2 ^ (- e)) e) =
  (if sign then "-" else "") ++ Py.decimal q ++ ".00".
Proof.
  intros Hq He. unfold Py.format_2f, Py.scaled.
  cbn [Py.mant Py.expo Py.neg].
  destruct (Z.ltb_spec (- e) 0) as [|_]; [lia|].
  assert (Hpow : 0 < 2 ^ (- e)) by (apply Z.pow_pos_nonneg; lia).
  replace (100 * (q * 2 ^ (- e))) with (100 * q * (1 * 2 ^ (- e))) by ring.
  rewrite round_half_even_exact by lia.
  assert (H1 : 100 * q / 100 = q) by (rewrite Z.mul_comm; apply Z.div_mul; lia).
  assert (H2 : 100 * q mod 100 = 0) by (rewrite Z.mul_comm; apply Z.mod_mul; lia).
  assert (H3 : 100 * q mod 10 = 0).
  { replace (100 * q) with (10 * q * 10) by ring. apply Z.mod_mul. lia. }
  rewrite H1, H2, H3. reflexivity.
Qed.

(** X11.  When 100 times the alternate count is a whole multiple q of
    the depth (q below 2^53), the appended column is exactly q with two
    zero decimals, with a minus sign when exactly one of the two counts is
    negative: 10 of 40 gives [25.00%], all reads alternate gives
    [100.00%], no alternate read gives [0.00%]. *)
Theorem X11_whole_percentage_exact
    (input_file line : string) (r a d q : Z) :
  record_with_counts line r a d ->
  d <> 0 ->
  Z.abs (100 * a) = q * Z.abs d ->
  q < 2 ^ 53 ->
  Calculator.process_line input_file line =
    Calculator.Written
      (Py.strip line
         ++ String Py.TAB
              ((if xorb (a <? 0) (d <? 0) then "-" else "")
                 ++ Py.decimal q ++ ".00%")
         ++ String Py.LF EmptyString).
Proof.
  intros Hrec Hd Hq Hlt.
  rewrite (process_line_counts input_file line r a d Hrec).
  destruct (true_div_exact (100 * a) d q Hd Hq Hlt) as (e & He & ->).
  cbn [bind Calculator.handle]. unfold frequency_row.
  rewrite format_2f_whole; [|nia|exact He].
  replace (100 * a <? 0) with (a <? 0)
    by (destruct (Z.ltb_spec a 0), (Z.ltb_spec (100 * a) 0); lia).
  f_equal. f_equal. cbn [append]. f_equal.
  rewrite !append_assoc. reflexivity.
Qed.

Lemma X11_whole_percentage_exact_witness :
  Calculator.process_line "sample.tab" sample_line =
    Calculator.Written
      (Py.strip sample_line
         ++ String Py.TAB
              ((if xorb (10 <? 0) (40 <? 0) then "-" else "")
                 ++ Py.decimal 25 ++ ".00%")
         ++ String Py.LF EmptyString).
Proof.
  apply (X11_whole_percentage_exact "sample.tab" sample_line 30 10 40 25).
  - exact sample_line_counts.
  - discriminate.
  - reflexivity.
  - reflexivity.
Defined.

(** *** The calculator on its own output *)

Lemma lstrip_head (s : string) :
  Py.lstrip s = EmptyString \/
  exists c rest, Py.lstrip s = String c rest /\ Py.isspace c = false.
Proof.
  unfold Py.lstrip. induction s as [|c s IH]; cbn [Py.lstrip_with].
  - now left.
  - destruct (Py.isspace c) eqn:Hc; [exact IH|].
    right. now exists c, s.
Qed.

Lemma rstrip_head (c : ascii) (s : string) :
  Py.isspace c = false ->
  exists rest, Py.rstrip (String c s) = String c rest.
Proof.
  intros Hc. unfold Py.rstrip. cbn [Py.rstrip_with].
  destruct (Py.rstrip_with Py.isspace s) as [|c' r].
  - rewrite Hc. now exists EmptyString.
  - now exists (String c' r).
Qed.

(** A stripped string is empty or starts with a character that is not
    whitespace. *)
Lemma strip_head (s : string) :
  Py.strip s = EmptyString \/
  exists c rest, Py.strip s = String c rest /\ Py.isspace c = false.
Proof.
  unfold Py.strip. destruct (lstrip_head s) as [->|(c & rest & -> & Hc)].
  - now left.
  - right. destruct (rstrip_head c rest Hc) as [r ->]. now exists c, r.
Qed.

Lemma rstrip_keeps (c : ascii) (s : string) :
  Py.isspace c = false ->
  Py.rstrip (s ++ String c EmptyString) = s ++ String c EmptyString.
Proof.
  intros Hc. unfold Py.rstrip.
  induction s as [|x s IH]; cbn [append Py.rstrip_with].
  - now rewrite Hc.
  - rewrite IH. destruct s; reflexivity.
Qed.

(** A row of the calculator, once stripped, is the row without its
    newline. *)
Lemma strip_frequency_row (line : string) (x : Py.float) :
  Py.strip line <> EmptyString ->
  Py.strip (frequency_row line x) =
  Py.strip line ++ String Py.TAB (Py.format_2f x ++ "%").
Proof.
  intros Hne. unfold frequency_row.
  replace (Py.strip line ++ String Py.TAB (Py.format_2f x)
             ++ String "%" (String Py.LF EmptyString))
    with ((Py.strip line ++ String Py.TAB (Py.format_2f x ++ "%"))
            ++ String Py.LF EmptyString).
  2:{ rewrite !append_assoc. cbn [append]. now rewrite append_assoc. }
  rewrite strip_trailing by reflexivity.
  destruct (strip_head line) as [Hempty|(c & rest & Hs & Hc)];
    [contradiction|].
  rewrite Hs. unfold Py.strip, Py.lstrip. cbn [append Py.lstrip_with].
  rewrite Hc.
  change (String c (rest ++ String Py.TAB (Py.format_2f x ++ "%")))
    with (String c rest ++ String Py.TAB (Py.format_2f x ++ "%")).
  replace (String c rest ++ String Py.TAB (Py.format_2f x ++ "%"))
    with ((String c rest ++ String Py.TAB (Py.format_2f x))
            ++ String "%" EmptyString).
  2:{ rewrite !append_assoc. reflexivity. }
  now apply rstrip_keeps.
Qed.

Lemma fields_of_frequency_row (line : string) (x : Py.float) :
  Py.strip line <> EmptyString ->
  Calculator.fields_of (frequency_row line x) =
  (Calculator.fields_of line ++ [(Py.format_2f x ++ "%")%string])%list.
Proof.
  intros Hne. unfold Calculator.fields_of.
  rewrite (strip_frequency_row line x Hne), split_app_sep.
  now rewrite (split_no_sep Py.TAB _ (frequency_column_clean x)).
Qed.

Lemma record_not_empty (line : string) (r a d : Z) :
  record_with_counts line r a d -> Py.strip line <> EmptyString.
Proof.
  intros (fc & sc & i & j & av & rt & alt & dv & H8 & _) Hempty.
  unfold Calculator.fields_of in H8. rewrite Hempty in H8. discriminate H8.
Qed.

(** X12.  A row the calculator wrote is again a readable record with
    the same counts: read a second time (the output files match [*.tab]
    themselves), it gets the same frequency column appended once
    more. *)
Theorem X12_row_is_a_record_again
    (input_file line : string) (r a d : Z) (x : Py.float) :
  record_with_counts line r a d ->
  Py.true_div (100 * a) d = Ok x ->
  record_with_counts (frequency_row line x) r a d /\
  Calculator.process_line input_file (frequency_row line x) =
    Calculator.Written
      (Py.strip line ++ String Py.TAB (Py.format_2f x ++ "%")
         ++ String Py.TAB (Py.format_2f x ++ "%")
         ++ String Py.LF EmptyString).
Proof.
  intros Hrec Hdiv.
  pose proof (record_not_empty line r a d Hrec) as Hne.
  assert (Hagain : record_with_counts (frequency_row line x) r a d).
  { destruct Hrec as (fc & sc & i & j & av & rt & alt & dv
                      & H8 & H9 & Hrest).
    exists fc, sc, i, j, av, rt, alt, dv.
    rewrite (fields_of_frequency_row line x Hne).
    rewrite !nth_error_app1
      by (apply nth_error_Some; first [rewrite H8 | rewrite H9]; discriminate).
    now split; [|split]. }
  split; [exact Hagain|].
  rewrite (process_line_counts input_file _ r a d Hagain), Hdiv.
  cbn [bind Calculator.handle]. unfold frequency_row at 1.
  rewrite (strip_frequency_row line x Hne).
  f_equal. rewrite !append_assoc. cbn [append]. rewrite !append_assoc.
  reflexivity.
Qed.

Lemma X12_row_is_a_record_again_witness :
  record_with_counts
    (frequency_row sample_line (Py.Float false 7036874417766400 (-48))) 30 10 40 /\
  Calculator.process_line "sample_freq.tab"
    (frequency_row sample_line (Py.Float false 7036874417766400 (-48))) =
    Calculator.Written
      (Py.strip sample_line
         ++ String Py.TAB (Py.format_2f (Py.Float false 7036874417766400 (-48)) ++ "%")
         ++ String Py.TAB (Py.format_2f (Py.Float false 7036874417766400 (-48)) ++ "%")
         ++ String Py.LF EmptyString).
Proof.
  apply (X12_row_is_a_record_again "sample_freq.tab" sample_line 30 10 40).
  - exact sample_line_counts.
  - vm_compute. reflexivity.
Defined.

(** *** The calculator on the output of the extractor *)

Section FieldCount.

Variable sep : ascii.

Lemma split_length_cons (c : ascii) (s : string) :
  List.length (Py.split sep (String c s)) =
  if Ascii.eqb c sep then S (List.length (Py.split sep s))
  else List.length (Py.split sep s).
Proof.
  cbn [Py.split]. destruct (Ascii.eqb c sep); [reflexivity|].
  pose proof (split_not_nil sep s).
  destruct (Py.split sep s); [contradiction | reflexivity].
Qed.

Lemma split_length_pos (s : string) :
  (1 <= List.length (Py.split sep s))%nat.
Proof.
  pose proof (split_not_nil sep s).
  destruct (Py.split sep s); [contradiction | cbn; lia].
Qed.

Lemma split_length_lstrip (p : ascii -> bool) (s : string) :
  (List.length (Py.split sep (Py.lstrip_with p s))
   <= List.length (Py.split sep s))%nat.
Proof.
  induction s as [|c s IH]; [reflexivity|].
  cbn [Py.lstrip_with]. destruct (p c); [|reflexivity].
  rewrite (split_length_cons c s). destruct (Ascii.eqb c sep); lia.
Qed.

Lemma split_length_rstrip (p : ascii -> bool) (s : string) :
  (List.length (Py.split sep (Py.rstrip_with p s))
   <= List.length (Py.split sep s))%nat.
Proof.
  induction s as [|c s IH]; [reflexivity|].
  cbn [Py.rstrip_with].
  destruct (Py.rstrip_with p s) as [|c' r] eqn:Hr.
  - pose proof (split_length_pos s) as Hs.
    destruct (p c).
    + rewrite split_length_cons. cbn [Py.split List.length].
      destruct (Ascii.eqb c sep); lia.
    + rewrite !split_length_cons. cbn [Py.split List.length].
      destruct (Ascii.eqb c sep); lia.
  - rewrite (split_length_cons c (String c' r)), (split_length_cons c s).
    destruct (Ascii.eqb c sep); lia.
Qed.

(** Stripping a string never adds a field. *)
Lemma split_length_strip (s : string) :
  (List.length (Py.split sep (Py.strip s))
   <= List.length (Py.split sep s))%nat.
Proof.
  unfold Py.strip, Py.rstrip, Py.lstrip.
  etransitivity; [apply split_length_rstrip | apply split_length_lstrip].
Qed.

End FieldCount.

(** A row of the extractor has at most two fields for the calculator. *)
Lemma extractor_row_is_short (line row : string) :
  Extractor.extract_line line = Some row ->
  (List.length (Calculator.fields_of row) < 10)%nat.
Proof.
  intros Hrow.
  destruct (extract_line_columns line row Hrow)
    as (columns & -> & _ & Hsplit & Hlen).
  unfold Calculator.fields_of.
  rewrite strip_trailing by reflexivity.
  pose proof (split_length_strip Py.TAB (tabbed columns)) as Hle.
  rewrite Hsplit in Hle. lia.
Qed.

Lemma extract_vcf_info_rows (infile : list string) (row : string) :
  In row (Extractor.extract_vcf_info infile) ->
  exists line, In line infile /\ Extractor.extract_line line = Some row.
Proof.
  induction infile as [|line infile IH]; [intros []|].
  cbn [Extractor.extract_vcf_info].
  destruct (Extractor.extract_line line) as [s|] eqn:Hline.
  - intros [<-|Hin].
    + exists line. split; [now left | exact Hline].
    + destruct (IH Hin) as (l & Hl & Hrow). exists l. split; [now right|exact Hrow].
  - intros Hin. destruct (IH Hin) as (l & Hl & Hrow).
    exists l. split; [now right | exact Hrow].
Qed.

(** The rows of the extractor, read as lines by the calculator, end the
    run at the first row. *)
Lemma run_on_extractor_rows (input_file : string) (infile : list string) :
  Calculator.compute_allele_frequency input_file
    (Extractor.extract_vcf_info infile) =
  Calculator.Run [] []
    match Extractor.extract_vcf_info infile with
    | [] => None
    | _ :: _ => Some IndexError
    end.
Proof.
  destruct (Extractor.extract_vcf_info infile) as [|row rows] eqn:Hrows;
    [reflexivity|].
  assert (Hin : In row (Extractor.extract_vcf_info infile))
    by (rewrite Hrows; now left).
  destruct (extract_vcf_info_rows infile row Hin) as (line & _ & Hline).
  cbn [Calculator.compute_allele_frequency].
  now rewrite (short_row_uncaught input_file row
                 (extractor_row_is_short line row Hline)).
Qed.

(** *** Reading back what was written *)

Section Substrings.

Variable p : ascii -> bool.

Lemma all_chars_lstrip (q : ascii -> bool) (s : string) :
  all_chars p s = true -> all_chars p (Py.lstrip_with q s) = true.
Proof.
  induction s as [|c s IH]; [reflexivity|].
  cbn [Py.lstrip_with all_chars]. intros H.
  destruct (q c); [|exact H].
  apply andb_true_iff in H. now apply IH.
Qed.

Lemma all_chars_rstrip (q : ascii -> bool) (s : string) :
  all_chars p s = true -> all_chars p (Py.rstrip_with q s) = true.
Proof.
  induction s as [|c s IH]; [reflexivity|].
  cbn [Py.rstrip_with all_chars]. intros H.
  apply andb_true_iff in H. destruct H as [Hc Hs].
  specialize (IH Hs).
  destruct (Py.rstrip_with q s) as [|c' r].
  - destruct (q c); [reflexivity|]. cbn. now rewrite Hc.
  - change (all_chars p (String c (String c' r)))
      with (p c && all_chars p (String c' r)).
    now rewrite Hc, IH.
Qed.

Lemma all_chars_strip (s : string) :
  all_chars p s = true -> all_chars p (Py.strip s) = true.
Proof.
  intros H. unfold Py.strip, Py.rstrip, Py.lstrip.
  now apply all_chars_rstrip, all_chars_lstrip.
Qed.

Lemma all_chars_split (sep : ascii) (s : string) :
  all_chars p s = true ->
  Forall (fun x => all_chars p x = true) (Py.split sep s).
Proof.
  induction s as [|c s IH]; cbn [Py.split all_chars].
  - intros _. now repeat constructor.
  - intros H. apply andb_true_iff in H. destruct H as [Hc Hs].
    specialize (IH Hs).
    destruct (Ascii.eqb c sep); [now constructor|].
    destruct (Py.split sep s) as [|h tl].
    + repeat constructor. cbn. now rewrite Hc.
    + inversion IH; subst. constructor; [|assumption].
      cbn. now rewrite Hc.
Qed.

Lemma all_chars_join (sep : string) (l : list string) :
  all_chars p sep = true ->
  Forall (fun x => all_chars p x = true) l ->
  all_chars p (Py.join sep l) = true.
Proof.
  intros Hsep. induction l as [|x l IH]; [reflexivity|].
  intros H. inversion H as [|? ? Hx Hl]; subst.
  destruct l as [|y l]; [exact Hx|].
  change (Py.join sep (x :: y :: l)) with (x ++ sep ++ Py.join sep (y :: l)).
  rewrite !all_chars_app, Hx, Hsep. now apply IH.
Qed.

End Substrings.

(** A line that was written whole is read back whole. *)
Lemma readlines_line (body rest : string) :
  all_chars inline_char body = true ->
  Files.readlines (body ++ String Py.LF rest) =
  (body ++ String Py.LF EmptyString) :: Files.readlines rest.
Proof.
  induction body as [|c body IH]; cbn [append all_chars].
  - reflexivity.
  - intros H. apply andb_true_iff in H. destruct H as [Hc Hbody].
    unfold inline_char in Hc. apply andb_true_iff in Hc.
    destruct Hc as [Hlf Hcr]. apply negb_true_iff in Hlf, Hcr.
    cbn [Files.readlines]. rewrite Hlf, Hcr, (IH Hbody). reflexivity.
Qed.

Lemma readlines_written (rows : list string) :
  Forall one_line rows -> Files.readlines (Files.written rows) = rows.
Proof.
  induction rows as [|row rows IH]; [reflexivity|].
  intros H. inversion H as [|? ? (body & -> & Hbody) Hrows]; subst.
  cbn [Files.written]. rewrite append_assoc. cbn [append].
  rewrite (readlines_line body _ Hbody). now rewrite IH.
Qed.

(** The lines read from a file hold no line break but their last
    character. *)
Lemma readlines_shape (content : string) :
  Forall (fun line => exists body,
            all_chars inline_char body = true /\
            (line = body ++ String Py.LF EmptyString \/ line = body))
         (Files.readlines content).
Proof.
  induction content as [|c content IH]; [constructor|].
  cbn [Files.readlines].
  destruct (Ascii.eqb c Py.LF) eqn:Hlf.
  { constructor; [|exact IH]. exists EmptyString. split; [reflexivity|now left]. }
  destruct (Ascii.eqb c Files.CR) eqn:Hcr.
  { destruct content as [|c' content'].
    - repeat constructor. exists EmptyString. split; [reflexivity|now left].
    - destruct (Ascii.eqb c' Py.LF); [exact IH|].
      constructor; [|exact IH].
      exists EmptyString. split; [reflexivity|now left]. }
  destruct (Files.readlines content) as [|l ls].
  - repeat constructor. exists (String c EmptyString). split; [|now right].
    cbn. unfold inline_char. now rewrite Hlf, Hcr.
  - inversion IH as [|? ? (body & Hbody & Hl) Hls]; subst.
    constructor; [|exact Hls].
    exists (String c body). split.
    + cbn. unfold inline_char at 1. now rewrite Hlf, Hcr.
    + destruct Hl as [->| ->]; [now left | now right].
Qed.

Lemma Forall_first {A : Type} (P : A -> Prop) (n : nat) (l : list A) :
  Forall P l -> Forall P (firstn n l).
Proof.
  revert n. induction l as [|x l IH]; intros n H.
  - destruct n; constructor.
  - destruct n as [|n]; [constructor|].
    inversion H; subst. cbn. constructor; [assumption | now apply IH].
Qed.

Lemma extractor_rows_one_line (infile : list string) :
  Forall (fun line => exists body,
            all_chars inline_char body = true /\
            (line = body ++ String Py.LF EmptyString \/ line = body))
         infile ->
  Forall one_line (Extractor.extract_vcf_info infile).
Proof.
  induction infile as [|line infile IH]; [constructor|].
  intros H. inversion H as [|? ? (body & Hbody & Hline) Hrest]; subst.
  cbn [Extractor.extract_vcf_info].
  destruct (Py.startswith "##" line) eqn:Hmeta.
  - rewrite (extract_line_meta line Hmeta). now apply IH.
  - rewrite (extract_line_retained line Hmeta).
    constructor; [|now apply IH].
    assert (Hstrip : all_chars inline_char (Py.strip line) = true).
    { destruct Hline as [->| ->];
        [rewrite strip_trailing by reflexivity|];
        now apply all_chars_strip. }
    eexists. split; [reflexivity|].
    unfold tabbed. apply all_chars_join; [reflexivity|].
    now apply Forall_first, all_chars_split.
Qed.

(** X13.  The two scripts do not compose: whatever the VCF file holds,
    the rows the extractor writes for it are read back by the calculator
    line for line, and the run of the calculator over them ends at the
    first row with [IndexError], nothing written and nothing printed
    (a row of the extractor has at most two fields). *)
Theorem X13_calculator_rejects_extractor_output
    (input_file vcf_content : string) :
  let rows := Extractor.extract_vcf_info (Files.readlines vcf_content) in
  Files.readlines (Files.written rows) = rows /\
  Calculator.compute_allele_frequency input_file
    (Files.readlines (Files.written rows)) =
  Calculator.Run [] []
    match rows with
    | [] => None
    | _ :: _ => Some IndexError
    end.
Proof.
  cbv zeta.
  assert (Hback : Files.readlines
                    (Files.written
                       (Extractor.extract_vcf_info
                          (Files.readlines vcf_content))) =
                  Extractor.extract_vcf_info (Files.readlines vcf_content)).
  { apply readlines_written, extractor_rows_one_line, readlines_shape. }
  split; [exact Hback|].
  rewrite Hback. apply run_on_extractor_rows.
Qed.

(** ** Facts about the driver of the calculator *)

Lemma length_append (a b : string) :
  String.length (a ++ b) = (String.length a + String.length b)%nat.
Proof. induction a as [|c a IH]; cbn; [reflexivity | now rewrite IH]. Qed.

Lemma append_inv_head (a x y : string) : a ++ x = a ++ y -> x = y.
Proof.
  induction a as [|c a IH]; cbn; [trivial|].
  intros H. inversion H. now apply IH.
Qed.

Lemma endswith_inv (suf s : string) :
  Py.endswith suf s = true -> exists base, s = base ++ suf.
Proof.
  induction s as [|c s IH]; cbn [Py.endswith].
  - rewrite orb_false_r. intros H. apply String.eqb_eq in H. subst suf.
    now exists EmptyString.
  - intros H. apply orb_true_iff in H. destruct H as [H|H].
    + apply String.eqb_eq in H. subst suf. now exists EmptyString.
    + destruct (IH H) as [base ->]. now exists (String c base).
Qed.

Section LastSeparator.

Variable sep : ascii.

Lemma rsplit1_no_sep (s : string) :
  all_chars (differs_from sep) s = true -> Files.rsplit1 sep s = [s].
Proof.
  induction s as [|c s IH]; [reflexivity|].
  cbn [all_chars]. intros H. apply andb_true_iff in H.
  destruct H as [Hc Hs]. unfold differs_from in Hc.
  apply negb_true_iff in Hc.
  cbn [Files.rsplit1]. rewrite (IH Hs), Hc. reflexivity.
Qed.

Lemma rsplit1_last (before after : string) :
  all_chars (differs_from sep) after = true ->
  Files.rsplit1 sep (before ++ String sep after) = [before; after].
Proof.
  intros Hafter. induction before as [|c before IH]; cbn [append].
  - cbn [Files.rsplit1]. rewrite (rsplit1_no_sep after Hafter).
    now rewrite Ascii.eqb_refl.
  - cbn [Files.rsplit1]. now rewrite IH.
Qed.

(** The two shapes of a split at the last separator. *)
Lemma rsplit1_cases (s : string) :
  Files.rsplit1 sep s = [s] \/
  exists before after,
    Files.rsplit1 sep s = [before; after] /\ s = before ++ String sep after.
Proof.
  induction s as [|c s IH]; [now left|].
  cbn [Files.rsplit1].
  destruct IH as [->|(before & after & -> & Hs)].
  - destruct (Ascii.eqb_spec c sep) as [->|Hne].
    + right. now exists EmptyString, s.
    + now left.
  - right. exists (String c before), after. split; [reflexivity|].
    cbn [append]. now rewrite <- Hs.
Qed.

End LastSeparator.

Lemma output_file_tab (base : string) :
  CalculatorDriver.output_file (base ++ ".tab") = base ++ "_freq.tab".
Proof.
  unfold CalculatorDriver.output_file.
  now rewrite (rsplit1_last "." base "tab" eq_refl).
Qed.

(** The output file is never the input file. *)
Lemma output_file_differs (name : string) :
  CalculatorDriver.output_file name <> name.
Proof.
  unfold CalculatorDriver.output_file.
  destruct (rsplit1_cases "." name) as [->|(before & after & -> & Hname)].
  - intros H. apply (f_equal String.length) in H.
    rewrite length_append in H. cbn in H. lia.
  - rewrite Hname. intros H. apply append_inv_head in H. discriminate H.
Qed.

Lemma glob_tab_names (d : Files.directory) (name : string) :
  In name (Files.glob_tab d) <->
  In name (map fst d) /\ Py.endswith ".tab" name = true
  /\ Py.startswith "." name = false.
Proof.
  unfold Files.glob_tab. rewrite filter_In, andb_true_iff, negb_true_iff.
  tauto.
Qed.

(** X14.  For every file name the calculator finds, the output name is
    the name with its final [.tab] replaced by [_freq.tab], whatever
    dots the rest of the name holds; it is never the name of the input
    file, and it ends with [.tab] again, so that a later run finds the
    output file as an input. *)
Theorem X14_output_name (d : Files.directory) (name : string) :
  In name (Files.glob_tab d) ->
  exists base,
    name = base ++ ".tab" /\
    CalculatorDriver.output_file name = base ++ "_freq.tab" /\
    CalculatorDriver.output_file name <> name /\
    Py.endswith ".tab" (CalculatorDriver.output_file name) = true.
Proof.
  intros Hin. apply glob_tab_names in Hin. destruct Hin as (_ & Hend & _).
  destruct (endswith_inv ".tab" name Hend) as [base ->].
  exists base. split; [reflexivity|].
  split; [apply output_file_tab|].
  split; [apply output_file_differs|].
  rewrite output_file_tab.
  change (base ++ "_freq.tab") with (base ++ "_freq" ++ ".tab").
  rewrite <- append_assoc. apply endswith_app.
Qed.

Lemma X14_output_name_witness :
  exists base,
    "run2.v1.tab" = base ++ ".tab" /\
    CalculatorDriver.output_file "run2.v1.tab" = base ++ "_freq.tab" /\
    CalculatorDriver.output_file "run2.v1.tab" <> "run2.v1.tab" /\
    Py.endswith ".tab" (CalculatorDriver.output_file "run2.v1.tab") = true.
Proof.
  apply (X14_output_name tab_directory "run2.v1.tab").
  vm_compute. right. left. reflexivity.
Defined.

Lemma prefix_app (p s : string) : String.prefix p (p ++ s) = true.
Proof.
  induction p as [|c p IH]; cbn [append String.prefix].
  - destruct s; reflexivity.
  - destruct (ascii_dec c c) as [_|Hne]; [exact IH | contradiction].
Qed.

Lemma logged_message (input_file line msg : string) :
  Calculator.process_line input_file line = Calculator.Logged msg ->
  msg = Calculator.error_message input_file line.
Proof.
  unfold Calculator.process_line.
  destruct (Py.getitem _ 8); [|discriminate].
  destruct (Py.getitem _ 9); [|discriminate].
  destruct (Calculator.try_block _ _ _) as [?|[]]; cbn;
    intros H; inversion H; reflexivity.
Qed.

Lemma run_messages (input_file : string) (f_in : list string) (msg : string) :
  In msg (Calculator.stdout
            (Calculator.compute_allele_frequency input_file f_in)) ->
  Py.startswith "Error processing line: " msg = true.
Proof.
  induction f_in as [|line f_in IH]; [intros []|].
  cbn [Calculator.compute_allele_frequency].
  destruct (Calculator.process_line input_file line) as [s|m|e] eqn:Hline;
    cbn [Calculator.stdout].
  - exact IH.
  - intros [<-|Hin]; [|now apply IH].
    rewrite (logged_message input_file line m Hline).
    apply prefix_app.
  - intros [].
Qed.

Lemma run_raised (input_file : string) (f_in : list string) (e : exn) :
  Calculator.raised (Calculator.compute_allele_frequency input_file f_in)
    = Some e ->
  exists line,
    In line f_in /\
    Calculator.process_line input_file line = Calculator.Uncaught e.
Proof.
  induction f_in as [|line f_in IH]; [discriminate|].
  cbn [Calculator.compute_allele_frequency].
  destruct (Calculator.process_line input_file line) as [s|m|e'] eqn:Hline;
    cbn [Calculator.raised].
  - intros H. destruct (IH H) as (l & Hl & Hu). exists l. split; [now right|exact Hu].
  - intros H. destruct (IH H) as (l & Hl & Hu). exists l. split; [now right|exact Hu].
  - intros H. inversion H; subst. exists line. split; [now left | exact Hline].
Qed.

Lemma run_raised_kind (input_file : string) (f_in : list string) (e : exn) :
  Calculator.raised (Calculator.compute_allele_frequency input_file f_in)
    = Some e ->
  e = IndexError \/ e = ZeroDivisionError \/ e = OverflowError.
Proof.
  intros H. destruct (run_raised input_file f_in e H) as (line & _ & Hline).
  destruct (uncaught_cases input_file line e Hline)
    as [[-> _]|(_ & r & a & d & _ & _ & [[-> _]|[-> _]])]; auto.
Qed.

Section Directory.

Lemma lookup_update_same (name content : string) (d : Files.directory) :
  Files.lookup name (Files.update name content d) = Some content.
Proof.
  induction d as [|[n old] d IH]; cbn.
  - now rewrite String.eqb_refl.
  - destruct (String.eqb n name) eqn:Hn; cbn; now rewrite Hn.
Qed.

Lemma lookup_update_other (name other content : string) (d : Files.directory) :
  other <> name ->
  Files.lookup other (Files.update name content d) = Files.lookup other d.
Proof.
  intros Hne. induction d as [|[n old] d IH]; cbn.
  - destruct (String.eqb_spec name other); [congruence | reflexivity].
  - destruct (String.eqb_spec n name) as [->|Hn]; cbn.
    + destruct (String.eqb_spec name other); [congruence | reflexivity].
    + now rewrite IH.
Qed.

(** Writing a file removes no file. *)
Lemma lookup_update_some (name other content : string) (d : Files.directory) :
  Files.lookup other d <> None ->
  Files.lookup other (Files.update name content d) <> None.
Proof.
  intros H. destruct (String.eqb_spec other name) as [->|Hne].
  - now rewrite lookup_update_same.
  - now rewrite lookup_update_other.
Qed.

Lemma lookup_listed (name : string) (d : Files.directory) :
  In name (map fst d) -> Files.lookup name d <> None.
Proof.
  induction d as [|[n content] d IH]; [intros []|].
  cbn. intros [->|Hin].
  - now rewrite String.eqb_refl.
  - destruct (String.eqb n name); [discriminate | now apply IH].
Qed.

End Directory.

Section Loop.

Import CalculatorDriver.

Lemma run_on_result (tab_file : string) (d : Files.directory) :
  Files.lookup tab_file d <> None ->
  exists content,
    Files.lookup tab_file d = Some content /\
    run_on tab_file (output_file tab_file) d =
    let r := Calculator.compute_allele_frequency tab_file
               (Files.readlines content) in
    Some (Files.update (output_file tab_file)
            (Files.written (Calculator.f_out r)) d, r).
Proof.
  intros H. unfold run_on.
  destruct (Files.lookup tab_file d) as [content|]; [|contradiction].
  exists content. split; [reflexivity|].
  destruct (String.eqb_spec (output_file tab_file) tab_file) as [Heq|_].
  - exfalso. exact (output_file_differs tab_file Heq).
  - reflexivity.
Qed.

(** What the loop over the files keeps: it never misses an input file,
    it prints diagnostics only, only three exceptions can end it, and the
    output file of every file it went through exists afterwards. *)
Lemma process_files_facts (tab_files : list string) (d : Files.directory) :
  (forall name, In name tab_files -> Files.lookup name d <> None) ->
  let done := process_files tab_files d in
  (forall name, Files.lookup name d <> None ->
                Files.lookup name (left done) <> None) /\
  (forall msg, In msg (console done) ->
               Py.startswith "Error processing line: " msg = true) /\
  (forall f, failed done = Some f ->
     f = Propagated IndexError \/ f = Propagated ZeroDivisionError
     \/ f = Propagated OverflowError) /\
  (failed done = None ->
   forall name, In name tab_files ->
                Files.lookup (output_file name) (left done) <> None).
Proof.
  revert d. induction tab_files as [|tab_file rest IH]; intros d Hlisted.
  - cbn. repeat split; try tauto; try discriminate.
  - cbv zeta. cbn [process_files].
    destruct (run_on_result tab_file d (Hlisted tab_file (or_introl eq_refl)))
      as (content & Hcontent & ->).
    cbv zeta.
    remember (Calculator.compute_allele_frequency tab_file
                (Files.readlines content)) as r eqn:Hr.
    remember (Files.update (output_file tab_file)
                (Files.written (Calculator.f_out r)) d) as d' eqn:Hd'.
    cbv beta iota.
    assert (Hkeep : forall name, Files.lookup name d <> None ->
                                 Files.lookup name d' <> None).
    { intros name Hn. subst d'. now apply lookup_update_some. }
    destruct (Calculator.raised r) as [e|] eqn:Hraised;
      cbn [left console failed].
    + split; [exact Hkeep|].
      split; [intros msg Hin; subst r; now apply run_messages in Hin|].
      split; [|discriminate].
      intros f Hf. inversion Hf; subst f. subst r.
      destruct (run_raised_kind _ _ _ Hraised) as [->|[->| ->]]; auto.
    + assert (Hlisted' : forall name, In name rest ->
                                      Files.lookup name d' <> None).
      { intros name Hn. apply Hkeep, Hlisted. now right. }
      destruct (IH d' Hlisted') as (IHkeep & IHmsg & IHfail & IHout).
      split; [intros name Hn; now apply IHkeep, Hkeep|].
      split.
      { intros msg Hin. apply in_app_or in Hin. destruct Hin as [Hin|Hin].
        - subst r. now apply run_messages in Hin.
        - now apply IHmsg. }
      split; [exact IHfail|].
      intros Hok name [<-|Hin].
      * apply IHkeep. subst d'. now rewrite lookup_update_same.
      * now apply IHout.
Qed.

(** Once the loop has failed, the files after the failing one play no
    part. *)
Lemma process_files_stops (tab_files rest : list string) (d : Files.directory) :
  failed (process_files tab_files d) <> None ->
  process_files (tab_files ++ rest) d = process_files tab_files d.
Proof.
  revert d. induction tab_files as [|tab_file tab_files IH]; intros d.
  - cbn. contradiction.
  - cbn [app process_files].
    destruct (run_on tab_file (output_file tab_file) d) as [[d' r]|];
      [|reflexivity].
    destruct (Calculator.raised r); [reflexivity|].
    cbn [failed]. intros H. now rewrite (IH d' H).
Qed.

End Loop.

Lemma summary_is_no_diagnostic (tab_files : list string) :
  Py.startswith "Error processing line: "
    (CalculatorDriver.summary tab_files) = false.
Proof. reflexivity. Qed.

(** X15.  In a directory of regular files, the driver of the
    calculator prints its summary only when every file it found was
    processed to the end: then the summary, with the number of files
    found, is the last line after the diagnostics, and the output file of
    every file found exists.  When the driver fails, whatever the
    failure is, the console holds diagnostics only, and no summary. *)
Theorem X15_summary_only_when_all_files_succeed (d : Files.directory) :
  let tab_files := Files.glob_tab d in
  let summary :=
    "Processed " ++ Files.str_len tab_files
      ++ " TAB files and calculated allele frequencies." in
  let done := CalculatorDriver.main d in
  (CalculatorDriver.failed done = None ->
   (exists diagnostics,
      CalculatorDriver.console done = (diagnostics ++ [summary])%list /\
      forall msg, In msg diagnostics ->
                  Py.startswith "Error processing line: " msg = true) /\
   forall name, In name tab_files ->
     Files.lookup (CalculatorDriver.output_file name)
                  (CalculatorDriver.left done) <> None)
  /\
  (forall f, CalculatorDriver.failed done = Some f ->
     (forall msg, In msg (CalculatorDriver.console done) ->
                  Py.startswith "Error processing line: " msg = true) /\
     ~ In summary (CalculatorDriver.console done)).
Proof.
  cbv zeta. unfold CalculatorDriver.main.
  assert (Hlisted : forall name, In name (Files.glob_tab d) ->
                                 Files.lookup name d <> None).
  { intros name Hin. apply lookup_listed. now apply glob_tab_names in Hin. }
  destruct (process_files_facts (Files.glob_tab d) d Hlisted)
    as (_ & Hmsg & _ & Hout).
  cbv zeta in Hmsg, Hout.
  destruct (CalculatorDriver.failed
              (CalculatorDriver.process_files (Files.glob_tab d) d))
    as [f|] eqn:Hfailed.
  - split; [rewrite Hfailed; discriminate|].
    intros f' _. split; [exact Hmsg|].
    intros Hin. apply Hmsg in Hin.
    change ("Processed " ++ Files.str_len (Files.glob_tab d)
              ++ " TAB files and calculated allele frequencies.")
      with (CalculatorDriver.summary (Files.glob_tab d)) in Hin.
    rewrite summary_is_no_diagnostic in Hin. discriminate.
  - cbn [CalculatorDriver.failed CalculatorDriver.console
         CalculatorDriver.left].
    split; [|discriminate].
    intros _. split.
    + eexists. split; [reflexivity | exact Hmsg].
    + now apply Hout.
Qed.

Lemma X15_summary_only_when_all_files_succeed_witness :
  (exists diagnostics,
     CalculatorDriver.console (CalculatorDriver.main tab_directory) =
       (diagnostics
          ++ [("Processed " ++ Files.str_len (Files.glob_tab tab_directory)
                 ++ " TAB files and calculated allele frequencies.")%string])%list /\
     forall msg, In msg diagnostics ->
                 Py.startswith "Error processing line: " msg = true) /\
  (forall msg,
     In msg (CalculatorDriver.console (CalculatorDriver.main failing_directory)) ->
     Py.startswith "Error processing line: " msg = true) /\
  ~ In ("Processed " ++ Files.str_len (Files.glob_tab failing_directory)
          ++ " TAB files and calculated allele frequencies.")
       (CalculatorDriver.console (CalculatorDriver.main failing_directory)).
Proof.
  split.
  - pose proof (X15_summary_only_when_all_files_succeed tab_directory) as H.
    cbv zeta in H. destruct H as [Hok _].
    apply Hok. vm_compute. reflexivity.
  - pose proof (X15_summary_only_when_all_files_succeed failing_directory) as H.
    cbv zeta in H. destruct H as [_ Hfail].
    apply (Hfail (CalculatorDriver.Propagated ZeroDivisionError)).
    vm_compute. reflexivity.
Defined.

(** X16.  A file whose run raises stops the whole driver: the files
    found after it are neither read nor written, and nothing more is
    printed; the effects of the driver are those of the loop over the
    files up to the failing one. *)
Theorem X16_failing_file_stops_the_driver
    (d : Files.directory) (tab_files rest : list string)
    (f : CalculatorDriver.failure) :
  Files.glob_tab d = (tab_files ++ rest)%list ->
  CalculatorDriver.failed (CalculatorDriver.process_files tab_files d)
    = Some f ->
  CalculatorDriver.main d = CalculatorDriver.process_files tab_files d.
Proof.
  intros Hglob Hfailed. unfold CalculatorDriver.main. rewrite Hglob.
  rewrite process_files_stops by (rewrite Hfailed; discriminate).
  now rewrite Hfailed.
Qed.

Lemma X16_failing_file_stops_the_driver_witness :
  CalculatorDriver.main failing_directory =
  CalculatorDriver.process_files ["bad.tab"] failing_directory.
Proof.
  apply (X16_failing_file_stops_the_driver failing_directory
           ["bad.tab"] ["good.tab"]
           (CalculatorDriver.Propagated ZeroDivisionError)).
  - vm_compute. reflexivity.
  - vm_compute. reflexivity.
Defined.

(** ** More facts about the driver of the extractor *)

Lemma endswith_cons (suf s : string) (c : ascii) :
  Py.endswith suf s = true -> Py.endswith suf (String c s) = true.
Proof. intros H. cbn [Py.endswith]. rewrite H. apply orb_true_r. Qed.

Lemma endswith_app_l (suf a s : string) :
  Py.endswith suf s = true -> Py.endswith suf (a ++ s) = true.
Proof.
  intros H. induction a as [|c a IH]; [exact H|].
  cbn [append]. now apply endswith_cons.
Qed.

Lemma prefix_length (p s : string) :
  String.prefix p s = true -> (String.length p <= String.length s)%nat.
Proof.
  revert s. induction p as [|c p IH]; intros s; [cbn; lia|].
  destruct s as [|c' s]; cbn [String.prefix String.length]; [discriminate|].
  destruct (ascii_dec c c'); [|discriminate].
  intros H. specialize (IH s H). lia.
Qed.

(** Whatever occurrences of [.vcf] come before it, the last [.vcf] of a
    name is replaced. *)
Lemma replace_from_ends (t : string) (skip : nat) :
  (skip <= String.length t)%nat ->
  Py.endswith ".tab" (Py.replace_from ".vcf" ".tab" skip (t ++ ".vcf")) = true.
Proof.
  revert skip. induction t as [|c t IH]; intros skip Hskip.
  - assert (skip = 0%nat) as -> by (cbn in Hskip; lia). reflexivity.
  - change ((String c t ++ ".vcf")%string) with (String c (t ++ ".vcf")).
    cbn [Py.replace_from].
    destruct skip as [|k].
    + change (String c (t ++ ".vcf")) with ((String c t ++ ".vcf")%string).
      destruct (String.prefix ".vcf" (String c t ++ ".vcf")) eqn:Hhere.
      * apply endswith_app_l, IH.
        destruct (String.prefix ".vcf" (String c t)) eqn:Hin.
        -- apply prefix_length in Hin. cbn in Hin |- *. lia.
        -- rewrite (vcf_no_straddle (String c t)) in Hhere;
             [discriminate | discriminate | exact Hin].
      * apply endswith_cons, IH. lia.
    + apply IH. cbn in Hskip. lia.
Qed.

Lemma tab_vcf_clash (b1 b2 : string) : b1 ++ ".tab" <> b2 ++ ".vcf".
Proof.
  revert b2. induction b1 as [|c b1 IH]; intros [|c' b2] H.
  - discriminate.
  - apply (f_equal String.length) in H. cbn in H.
    rewrite length_append in H. cbn in H. lia.
  - apply (f_equal String.length) in H. cbn in H.
    rewrite length_append in H. cbn in H. lia.
  - cbn in H. inversion H. now apply (IH b2).
Qed.

Lemma tab_is_not_vcf (s : string) :
  Py.endswith ".tab" s = true -> Py.endswith ".vcf" s = false.
Proof.
  intros Htab. destruct (Py.endswith ".vcf" s) eqn:Hvcf; [|reflexivity].
  destruct (endswith_inv _ _ Htab) as [b1 H1].
  destruct (endswith_inv _ _ Hvcf) as [b2 H2].
  exfalso. subst s. exact (tab_vcf_clash b1 b2 H2).
Qed.

Lemma path_join_here (name : string) :
  exists before, Py.path_join "." name = before ++ name.
Proof.
  unfold Py.path_join. destruct (Py.startswith "/" name).
  - now exists EmptyString.
  - now exists "./".
Qed.

(** X17.  Whatever occurrences of [.vcf] the name of a VCF file holds,
    the path the extractor writes to ends with [.tab]; it is never the
    path of a file the extractor reads, so no VCF file is overwritten. *)
Theorem X17_output_path_ends_with_tab (filename : string) :
  Py.endswith ".vcf" filename = true ->
  Py.endswith ".tab" (Extractor.output_tab filename) = true /\
  forall other,
    Py.endswith ".vcf" other = true ->
    Extractor.output_tab filename <> Extractor.input_vcf other.
Proof.
  intros Hvcf.
  assert (Htab : Py.endswith ".tab" (Extractor.output_tab filename) = true).
  { destruct (endswith_inv _ _ Hvcf) as [base ->].
    unfold Extractor.output_tab, Extractor.directory_path.
    destruct (path_join_here (Py.replace ".vcf" ".tab" (base ++ ".vcf")))
      as [before ->].
    apply endswith_app_l. unfold Py.replace. apply replace_from_ends. lia. }
  split; [exact Htab|].
  intros other Hother Heq.
  apply tab_is_not_vcf in Htab. rewrite Heq in Htab.
  unfold Extractor.input_vcf in Htab.
  destruct (path_join_here other) as [before Hjoin].
  unfold Extractor.directory_path in Htab. rewrite Hjoin in Htab.
  rewrite (endswith_app_l ".vcf" before other Hother) in Htab.
  discriminate.
Qed.

Lemma X17_output_path_ends_with_tab_witness :
  Py.endswith ".tab" (Extractor.output_tab "calls.vcf.sorted.vcf") = true /\
  forall other,
    Py.endswith ".vcf" other = true ->
    Extractor.output_tab "calls.vcf.sorted.vcf" <> Extractor.input_vcf other.
Proof.
  apply (X17_output_path_ends_with_tab "calls.vcf.sorted.vcf").
  vm_compute. reflexivity.
Defined.









(** ** The accuracy of the frequency *)

Lemma format_2f_hundredths (x : Py.float) :
  Py.format_2f x =
  (if Py.neg x then "-" else "")
    ++ Py.decimal (hundredths x / 100)
    ++ String "." (String (Py.digit_char (hundredths x mod 100 / 10))
                     (String (Py.digit_char (hundredths x mod 10))
                        EmptyString)).
Proof.
  unfold Py.format_2f, hundredths.
  now destruct (Py.scaled (100 * Py.mant x) 1 (- Py.expo x)).
Qed.

(** For a quotient below 2^40 the division gives the float nearest to
    it, scaled by at least twelve binary digits. *)
Lemma true_div_nearest (n d : Z) :
  d <> 0 -> n <> 0 -> Z.abs n < 2 ^ 40 * Z.abs d ->
  exists m e,
    Py.true_div n d = Ok (Py.Float (xorb (n <? 0) (d <? 0)) m e) /\
    e <= -12 /\
    2 * Z.abs (Z.abs n * 2 ^ (- e) - Z.abs d * m) <= Z.abs d.
Proof.
  intros Hd Hn Hlt. unfold Py.true_div.
  destruct (Z.eqb_spec d 0) as [|_]; [contradiction|].
  set (N := Z.abs n) in *. set (D := Z.abs d) in *.
  assert (HD : 0 < D) by (unfold D; lia).
  assert (HN : 0 < N) by (unfold N; lia).
  destruct (Z.eqb_spec N 0) as [HN0|_]; [lia|].
  assert (HlogN : Z.log2 N <= 40 + Z.log2 D).
  { rewrite <- Z.log2_mul_pow2 by lia. apply Z.log2_le_mono. lia. }
  set (e0 := Z.log2 N - Z.log2 D - 53).
  assert (He0 : e0 <= -13) by (unfold e0; lia).
  destruct (Py.scaled N D e0) as [a b] eqn:Hs0. cbv beta iota zeta.
  set (e1 := if b * 2 ^ 53 <=? a then e0 + 1 else e0).
  assert (He1 : e1 <= -12) by (unfold e1; destruct (b * 2 ^ 53 <=? a); lia).
  set (e := Z.max e1 (-1074)).
  assert (He : -1074 <= e <= -12) by (unfold e; lia).
  destruct (Py.scaled N D e) as [a' b'] eqn:Hs1. cbv beta iota.
  unfold Py.scaled in Hs1.
  destruct (Z.ltb_spec e 0) as [_|]; [|lia].
  inversion Hs1; subst a' b'.
  destruct (Z.ltb_spec 971 e); [lia|].
  destruct (Z.eqb_spec e 971); [lia|]. cbn [orb andb].
  eexists _, e. split; [reflexivity|]. split; [lia|].
  pose proof (round_half_even_nearest (N * 2 ^ (- e)) D HD). lia.
Qed.

(** The hundredths shown are the nearest to the float. *)
Lemma hundredths_nearest (sign : bool) (m e : Z) :
  e <= 0 ->
  2 * Z.abs (100 * m - 2 ^ (- e) * hundredths (Py.Float sign m e))
    <= 2 ^ (- e).
Proof.
  intros He. unfold hundredths, Py.scaled. cbn [Py.mant Py.expo].
  destruct (Z.ltb_spec (- e) 0) as [|_]; [lia|].
  assert (Hpow : 0 < 2 ^ (- e)) by (apply Z.pow_pos_nonneg; lia).
  rewrite Z.mul_1_l.
  pose proof (round_half_even_nearest (100 * m) (2 ^ (- e)) Hpow). lia.
Qed.

(** The hundredths shown are within 0.52 of the exact quotient. *)
Lemma frequency_accuracy (a d : Z) :
  d <> 0 -> Z.abs (100 * a) < 2 ^ 40 * Z.abs d ->
  exists x,
    Py.true_div (100 * a) d = Ok x /\
    Py.neg x = xorb (a <? 0) (d <? 0) /\
    25 * Z.abs (100 * Z.abs (100 * a) - hundredths x * Z.abs d)
      <= 13 * Z.abs d.
Proof.
  intros Hd Hlt.
  assert (Hsign : (100 * a <? 0) = (a <? 0))
    by (destruct (Z.ltb_spec a 0), (Z.ltb_spec (100 * a) 0); lia).
  destruct (Z.eq_dec (100 * a) 0) as [Hzero|Hnz].
  - exists (Py.Float (xorb (a <? 0) (d <? 0)) 0 0).
    split; [|split; [reflexivity|]].
    + unfold Py.true_div. destruct (Z.eqb_spec d 0); [contradiction|].
      rewrite Hsign, Hzero. reflexivity.
    + rewrite Hzero. change (hundredths _) with 0. lia.
  - destruct (true_div_nearest (100 * a) d Hd Hnz Hlt)
      as (m & e & Hdiv & He & Hm).
    exists (Py.Float (xorb (100 * a <? 0) (d <? 0)) m e).
    split; [exact Hdiv|]. split; [cbn [Py.neg]; now rewrite Hsign|].
    pose proof (hundredths_nearest (xorb (100 * a <? 0) (d <? 0)) m e
                  ltac:(lia)) as Hk.
    set (k := hundredths _) in *.
    set (N := Z.abs (100 * a)) in *. set (D := Z.abs d) in *.
    assert (HP : 2 ^ 12 <= 2 ^ (- e)) by (apply Z.pow_le_mono_r; lia).
    set (P := 2 ^ (- e)) in *.
    assert (HD : 0 < D) by (unfold D; lia).
    assert (Hkey : 2 * P * Z.abs (100 * N - k * D) <= D * (100 + P)).
    { assert (Hsplit : P * (100 * N - k * D)
                       = 100 * (N * P - D * m) + D * (100 * m - P * k))
        by ring.
      assert (Z.abs (P * (100 * N - k * D))
              <= 100 * Z.abs (N * P - D * m) + D * Z.abs (100 * m - P * k)).
      { rewrite Hsplit.
        etransitivity; [apply Z.abs_triangle|].
        rewrite !Z.abs_mul. rewrite (Z.abs_eq 100), (Z.abs_eq D) by lia. lia. }
      rewrite Z.abs_mul, (Z.abs_eq P) in H by lia. nia. }
    change (2 ^ 12) with 4096 in HP. nia.
Qed.

(** X19.  For every readable record with a non-zero depth and a quotient
    below 2^40, the row is written and the column shows the exact
    percentage 100*a/d rounded to two decimals up to the rounding of the
    float: a minus sign when exactly one of the counts is negative, and a
    number of hundredths that differs from the exact value by at most
    0.52, that is a percentage off by at most 0.0052. *)
Theorem X19_frequency_accuracy (input_file line : string) (r a d : Z) :
  record_with_counts line r a d ->
  d <> 0 ->
  Z.abs (100 * a) < 2 ^ 40 * Z.abs d ->
  exists x,
    Calculator.process_line input_file line =
      Calculator.Written (frequency_row line x) /\
    Py.format_2f x =
      (if xorb (a <? 0) (d <? 0) then "-" else "")
        ++ Py.decimal (hundredths x / 100)
        ++ String "." (String (Py.digit_char (hundredths x mod 100 / 10))
                         (String (Py.digit_char (hundredths x mod 10))
                            EmptyString)) /\
    25 * Z.abs (100 * Z.abs (100 * a) - hundredths x * Z.abs d)
      <= 13 * Z.abs d.
Proof.
  intros Hrec Hd Hlt.
  destruct (frequency_accuracy a d Hd Hlt) as (x & Hdiv & Hneg & Hbound).
  exists x. split; [|split; [|exact Hbound]].
  - rewrite (process_line_counts input_file line r a d Hrec), Hdiv.
    reflexivity.
  - rewrite format_2f_hundredths, Hneg. reflexivity.
Qed.

Lemma X19_frequency_accuracy_witness :
  exists x,
    Calculator.process_line "sample.tab" excess_line =
      Calculator.Written (frequency_row excess_line x) /\
    Py.format_2f x =
      (if xorb (60 <? 0) (40 <? 0) then "-" else "")
        ++ Py.decimal (hundredths x / 100)
        ++ String "." (String (Py.digit_char (hundredths x mod 100 / 10))
                         (String (Py.digit_char (hundredths x mod 10))
                            EmptyString)) /\
    25 * Z.abs (100 * Z.abs (100 * 60) - hundredths x * Z.abs 40)
      <= 13 * Z.abs 40.
Proof.
  apply (X19_frequency_accuracy "sample.tab" excess_line 30 60 40).
  - exact excess_line_counts.
  - discriminate.
  - reflexivity.
Defined.

(** ** Where the claims about fields and depth stop holding *)

(** C3 as stated fails on two lines whose DP value is the integer 0: a
    record with three counts for AD, and a record whose FORMAT does not
    name AD.  On both the [try] block raises [ValueError] before the
    division is reached: the line is skipped with the diagnostic and the
    run goes on to the next record. *)
Lemma C3_counterexample :
  (nth_error (Calculator.fields_of three_counts_zero_line) 8
     = Some "GT:AD:DP" /\
   nth_error (Calculator.fields_of three_counts_zero_line) 9
     = Some "1/2:0,0,0:0" /\
   Py.index "DP" (Py.split ":" "GT:AD:DP") = Ok 2%nat /\
   nth_error (Py.split ":" "1/2:0,0,0:0") 2 = Some "0" /\
   Py.int "0" = Ok 0 /\
   Calculator.compute_allele_frequency "sample.tab"
     [three_counts_zero_line; sample_line] =
   Calculator.Run
     [sample_text ++ String Py.TAB "25.00%" ++ String Py.LF EmptyString]
     ["Error processing line: " ++ Py.strip three_counts_zero_line
        ++ " in sample.tab"]
     None)
  /\
  (nth_error (Calculator.fields_of depth_only_zero_line) 8 = Some "GT:DP" /\
   nth_error (Calculator.fields_of depth_only_zero_line) 9 = Some "0/1:0" /\
   Py.index "DP" (Py.split ":" "GT:DP") = Ok 1%nat /\
   nth_error (Py.split ":" "0/1:0") 1 = Some "0" /\
   Py.int "0" = Ok 0 /\
   Calculator.compute_allele_frequency "sample.tab"
     [depth_only_zero_line; sample_line] =
   Calculator.Run
     [sample_text ++ String Py.TAB "25.00%" ++ String Py.LF EmptyString]
     ["Error processing line: " ++ Py.strip depth_only_zero_line
        ++ " in sample.tab"]
     None).
Proof.
  split.
  - split; [vm_compute; reflexivity|]. split; [vm_compute; reflexivity|].
    split; [vm_compute; reflexivity|]. split; [vm_compute; reflexivity|].
    split; vm_compute; reflexivity.
  - split; [vm_compute; reflexivity|]. split; [vm_compute; reflexivity|].
    split; [vm_compute; reflexivity|]. split; [vm_compute; reflexivity|].
    split; vm_compute; reflexivity.
Qed.

(** C4 as stated fails on two lines with at least 10 tab-separated
    columns whose column 8 lacks a name.  A line that starts with a tab
    loses its empty first column when it is stripped, so that the columns
    move down by one: column 8 is [GT], yet the code reads the next two
    columns as FORMAT and sample and writes a row.  A line whose tenth
    column is empty loses that column, has 9 fields left and ends the run
    with [IndexError]: no diagnostic, and the next record is not
    processed. *)
Lemma C4_counterexample :
  (List.length (Py.split Py.TAB shifted_text) = 11%nat /\
   nth_error (Py.split Py.TAB shifted_text) 8 = Some "GT" /\
   ~ In "AD" (Py.split ":" "GT") /\
   Calculator.compute_allele_frequency "sample.tab"
     [terminated shifted_text] =
   Calculator.Run
     [Py.strip shifted_text ++ String Py.TAB "25.00%"
        ++ String Py.LF EmptyString]
     [] None)
  /\
  (List.length (Py.split Py.TAB empty_tenth_text) = 10%nat /\
   nth_error (Py.split Py.TAB empty_tenth_text) 8 = Some "GT:AD" /\
   ~ In "DP" (Py.split ":" "GT:AD") /\
   Calculator.compute_allele_frequency "sample.tab"
     [terminated empty_tenth_text; sample_line] =
   Calculator.Run [] [] (Some IndexError)).
Proof.
  split.
  - split; [vm_compute; reflexivity|]. split; [vm_compute; reflexivity|].
    split; [|vm_compute; reflexivity].
    vm_compute. intros [H|H]; [discriminate H | exact H].
  - split; [vm_compute; reflexivity|]. split; [vm_compute; reflexivity|].
    split; [|vm_compute; reflexivity].
    vm_compute. intros [H|[H|H]]; [discriminate H | discriminate H | exact H].
Qed.

(** C5 as stated fails on two lines with two tab-separated columns that
    do not start with [##].  After a leading blank, column 0 is written
    without the blank, so it is not kept as it is; and when column 1 is
    empty the tab before it is stripped with it, so the row written has
    one column, not two. *)
Lemma C5_counterexample :
  (Py.startswith "##" (terminated blank_led_text) = false /\
   Py.split Py.TAB blank_led_text = [" chr1"; "12345"] /\
   Extractor.extract_line (terminated blank_led_text) =
     Some ("chr1" ++ String Py.TAB "12345" ++ String Py.LF EmptyString) /\
   Extractor.extract_line (terminated blank_led_text) <>
     Some (" chr1" ++ String Py.TAB "12345" ++ String Py.LF EmptyString))
  /\
  (Py.startswith "##" (terminated empty_second_text) = false /\
   Py.split Py.TAB empty_second_text = ["chr1"; ""] /\
   Extractor.extract_line (terminated empty_second_text) =
     Some ("chr1" ++ String Py.LF EmptyString) /\
   Py.split Py.TAB "chr1" = ["chr1"]).
Proof.
  split.
  - split; [vm_compute; reflexivity|]. split; [vm_compute; reflexivity|].
    split; [vm_compute; reflexivity|]. vm_compute. discriminate.
  - split; [vm_compute; reflexivity|]. split; [vm_compute; reflexivity|].
    split; vm_compute; reflexivity.
Qed.
